(** * Book-Alchemy: a shallow embedding of [app.py] and [data_models.py]

    The Flask handlers of [app.py] are embedded as computations in a small
    state-and-exception monad over an explicit model of the SQLAlchemy
    session (pending unit of work, open transaction, durable tables) and of
    the flash queue.  Query expressions ([join], [filter], [ilike],
    [order_by]) are embedded as pure functions over the tables. *)

From Stdlib Require Import ZArith List String Ascii Bool Lia.
From Stdlib Require Import Permutation Sorted RelationClasses.
From Stdlib Require Import DecimalString DecimalZ DecimalPos.
Import ListNotations.

Local Open Scope string_scope.
Local Open Scope Z_scope.

(** ** Text *)

(** A text is kept as the bytes of its UTF-8 encoding.  A character is a
    byte below 0xC0 on its own, or a lead byte (0xC0 and above) with the
    continuation bytes (0x80..0xBF) that follow it. *)
Module Utf8.

Definition continuation (c : ascii) : bool :=
    let n := N_of_ascii c in ((128 <=? n) && (n <? 192))%N.

Definition lead (c : ascii) : bool := (192 <=? N_of_ascii c)%N.

(** [w] takes up the continuation bytes at the head of [l]. *)
Fixpoint absorb (w : string) (l : list string) : list string :=
    match l with
    | String c EmptyString :: l' =>
        if continuation c then absorb (w ++ String c EmptyString) l'
        else w :: l
    | _ => w :: l
    end.

(** The characters of a text, in order. *)
Fixpoint chars (s : string) : list string :=
    match s with
    | EmptyString => []
    | String c s' =>
        if lead c then absorb (String c EmptyString) (chars s')
        else String c EmptyString :: chars s'
    end.

Fixpoint unchars (l : list string) : string :=
    match l with
    | [] => EmptyString
    | c :: l' => c ++ unchars l'
    end.

Definition byte (n : N) : string := String (ascii_of_N n) EmptyString.

(** The encoding of a code point. *)
Definition encode (cp : N) : string :=
    (if cp <? 128 then byte cp
     else if cp <? 2048 then
       byte (192 + cp / 64) ++ byte (128 + cp mod 64)
     else if cp <? 65536 then
       byte (224 + cp / 4096) ++ byte (128 + (cp / 64) mod 64) ++
       byte (128 + cp mod 64)
     else
       byte (240 + cp / 262144) ++ byte (128 + (cp / 4096) mod 64) ++
       byte (128 + (cp / 64) mod 64) ++ byte (128 + cp mod 64))%N.

End Utf8.

(** ** Python built-ins used by the handlers *)

Module Py.

(** Exceptions that the handlers can meet. *)
Inductive exn : Type :=
  | ValueError
  | NameError (name : string)
  | AttributeError (attr : string)
  | IntegrityError
  | OverflowError.

(** The code points that [str.isspace] holds of: TAB..CR, FS..US, SPACE,
    NEL, NBSP, OGHAM SPACE MARK, EN QUAD..HAIR SPACE, LINE and PARAGRAPH
    SEPARATOR, NARROW NBSP, MEDIUM MATHEMATICAL SPACE, IDEOGRAPHIC
    SPACE. *)
Definition whitespace : list N :=
    [9; 10; 11; 12; 13; 28; 29; 30; 31; 32; 133; 160; 5760;
     8192; 8193; 8194; 8195; 8196; 8197; 8198; 8199; 8200; 8201; 8202;
     8232; 8233; 8239; 8287; 12288]%N.

(** [c.isspace()] for one character. *)
Definition isspace (c : string) : bool :=
    existsb (fun cp => String.eqb c (Utf8.encode cp)) whitespace.

Fixpoint lstrip (l : list string) : list string :=
    match l with
    | [] => []
    | c :: l' => if isspace c then lstrip l' else l
    end.

Definition rstrip (l : list string) : list string := rev (lstrip (rev l)).

(** [s.strip()] *)
Definition strip (s : string) : string :=
    Utf8.unchars (rstrip (lstrip (Utf8.chars s))).

(** Truth value of a [str]: the empty string is falsy. *)
Definition truthy (s : string) : bool :=
    match s with EmptyString => false | _ => true end.

(** Truth value of an [Optional[str]], as returned by [form.get]. *)
Definition truthy_opt (o : option string) : bool :=
    match o with Some s => truthy s | None => false end.

Definition isdigit (c : ascii) : bool :=
    let n := N_of_ascii c in ((48 <=? n) && (n <=? 57))%N.

Definition digit_value (c : ascii) : Z := Z.of_N (N_of_ascii c) - 48.

(** Digits of a decimal literal; single underscores may separate digits. *)
Fixpoint digits (s : string) (acc : Z) (after_digit : bool) : option Z :=
    match s with
    | EmptyString => if after_digit then Some acc else None
    | String c s' =>
        if isdigit c then digits s' (10 * acc + digit_value c) true
        else if (Ascii.eqb c "_" && after_digit)%bool then digits s' acc false
        else None
    end.

(** The white space that [int] drops at the ends of its argument: the
    characters that [str.isspace] holds of, except the four separators
    FS..US. *)
Definition int_whitespace : list N :=
    filter (fun cp => negb ((28 <=? cp) && (cp <=? 31)))%N whitespace.

Definition int_space (c : string) : bool :=
    existsb (fun cp => String.eqb c (Utf8.encode cp)) int_whitespace.

Fixpoint int_lstrip (l : list string) : list string :=
    match l with
    | [] => []
    | c :: l' => if int_space c then int_lstrip l' else l
    end.

Definition int_strip (s : string) : string :=
    Utf8.unchars (rev (int_lstrip (rev (int_lstrip (Utf8.chars s))))).

(** [int(s)] for a [str] argument, base 10: surrounding whitespace is
    dropped, one sign is allowed; [None] stands for [ValueError].  The
    digits read are 0..9; the decimal digits of other scripts, which
    [int] reads as well, are answered [None] here, so [None] is
    [ValueError] for text within ASCII.  Integers are unbounded; the
    interpreter's configurable limit on the number of digits of a text
    is left out. *)
Definition int (s : string) : option Z :=
    match int_strip s with
    | String "-" r => option_map Z.opp (digits r 0 false)
    | String "+" r => digits r 0 false
    | t => digits t 0 false
    end.

End Py.

(** ** SQL text operators *)

Module Sql.

(** SQLite's [lower()]: only the 26 ASCII capitals are folded. *)
Definition lower_ascii (c : ascii) : ascii :=
    let n := N_of_ascii c in
    if ((65 <=? n) && (n <=? 90))%N then ascii_of_N (n + 32) else c.

Fixpoint lower (s : string) : string :=
    match s with
    | EmptyString => EmptyString
    | String c s' => String (lower_ascii c) (lower s')
    end.

(** LIKE reads its operands as C strings: up to the first NUL. *)
Fixpoint cstring (s : string) : string :=
    match s with
    | EmptyString => EmptyString
    | String c s' =>
        if Ascii.eqb c zero then EmptyString else String c (cstring s')
    end.

(** [k] holds of what is left of [t] after some characters: what a [%]
    in a pattern tries. *)
Fixpoint like_star (k : list string -> bool) (t : list string) : bool :=
    k t || match t with
           | [] => false
           | _ :: t' => like_star k t'
           end.

(** Pattern against text, character by character: [%] matches any run
    of characters, [_] exactly one character, every other character
    itself; the whole of the text must be matched. *)
Fixpoint like_chars (p t : list string) : bool :=
    match p with
    | [] => match t with [] => true | _ => false end
    | c :: p' =>
        if String.eqb c "%" then like_star (like_chars p') t
        else match t with
             | [] => false
             | d :: t' =>
                 if String.eqb c "_" then like_chars p' t'
                 else String.eqb c d && like_chars p' t'
             end
    end.

(** [t LIKE p] *)
Definition like (p t : string) : bool :=
    like_chars (Utf8.chars (cstring p)) (Utf8.chars (cstring t)).

(** [column.ilike(pattern)], which SQLAlchemy renders for SQLite as
    [lower(column) LIKE lower(pattern)]. *)
Definition ilike (column pattern : string) : bool :=
    like (lower pattern) (lower column).

(** Integers are kept in 64 bits, signed. *)
Definition int64 (n : Z) : bool :=
    (- 2 ^ 63 <=? n) && (n <=? 2 ^ 63 - 1).

(** Storage classes a cell of an INTEGER-affinity column can hold. *)
Inductive value : Type :=
  | Null
  | Int (z : Z)
  | Real (repr : string)
  | Text (s : string).

Definition value_eqb (a b : value) : bool :=
    match a, b with
    | Int x, Int y => Z.eqb x y
    | Real x, Real y => String.eqb x y
    | Text x, Text y => String.eqb x y
    | _, _ => false
    end.

(** A decimal integer literal: an optional sign and digits only. *)
Fixpoint plain_digits (s : string) (acc : Z) : option Z :=
    match s with
    | EmptyString => Some acc
    | String c s' =>
        let n := N_of_ascii c in
        if ((48 <=? n) && (n <=? 57))%N
        then plain_digits s' (10 * acc + (Z.of_N n - 48))
        else None
    end.

Definition integer_literal (s : string) : option Z :=
    match s with
    | EmptyString => None
    | String "-" EmptyString | String "+" EmptyString => None
    | String "-" r => option_map Z.opp (plain_digits r 0)
    | String "+" r => plain_digits r 0
    | _ => plain_digits s 0
    end.

(** The white space that SQLite's number reader skips at both ends of a
    text: tab, line feed, vertical tab, form feed, carriage return,
    space. *)
Definition space (c : ascii) : bool :=
    let n := N_of_ascii c in
    ((9 <=? n) && (n <=? 13) || (n =? 32))%N.

Fixpoint ltrim (l : list ascii) : list ascii :=
    match l with
    | c :: l' => if space c then ltrim l' else l
    | [] => []
    end.

Definition trim (s : string) : string :=
    string_of_list_ascii
      (rev (ltrim (rev (ltrim (list_ascii_of_string s))))).

(** The text before and after the first point of [s], if it has one. *)
Fixpoint split_point (s : string) : option (string * string) :=
    match s with
    | EmptyString => None
    | String c s' =>
        if Ascii.eqb c "."
        then Some (EmptyString, s')
        else match split_point s' with
             | Some (i, f) => Some (String c i, f)
             | None => None
             end
    end.

Definition all_zero (s : string) : bool :=
    forallb (Ascii.eqb "0") (list_ascii_of_string s).

(** A decimal with a point, an optional sign, at least one and at most 15
    digits, and no fraction digit other than 0: the integer it denotes.
    (Up to 15 digits the number is found without rounding.) *)
Definition whole_decimal (s : string) : option Z :=
    let '(negative, r) :=
      match s with
      | String "-" r => (true, r)
      | String "+" r => (false, r)
      | _ => (false, s)
      end in
    match split_point r with
    | Some (i, f) =>
        if all_zero f
           && (1 <=? String.length i + String.length f)%nat
           && (String.length i + String.length f <=? 15)%nat
        then option_map (fun z => if negative then - z else z)
                        (plain_digits i 0)
        else None
    | None => None
    end.

Definition is_digit (c : ascii) : bool :=
    let n := N_of_ascii c in ((48 <=? n) && (n <=? 57))%N.

(** The number of digits that [l] begins with, and what follows them. *)
Fixpoint skip_digits (l : list ascii) : nat * list ascii :=
    match l with
    | c :: l' =>
        if is_digit c
        then let '(n, r) := skip_digits l' in (S n, r)
        else (O, l)
    | [] => (O, [])
    end.

Definition skip_sign (l : list ascii) : list ascii :=
    match l with
    | "-"%char :: r | "+"%char :: r => r
    | _ => l
    end.

(** Whether [s], without the white space at its ends, is a number to
    SQLite: an optional sign, digits with at most one point among them
    and at least one digit, and optionally an exponent, [e] or [E] with
    an optional sign and at least one digit. *)
Definition is_number (s : string) : bool :=
    let '(n, r) := skip_digits (skip_sign (list_ascii_of_string (trim s))) in
    let '(m, r) :=
      match r with
      | "."%char :: r' => skip_digits r'
      | _ => (O, r)
      end in
    (0 <? n + m)%nat &&
    match r with
    | [] => true
    | c :: r' =>
        (Ascii.eqb c "e" || Ascii.eqb c "E") &&
        (let '(k, r'') := skip_digits (skip_sign r') in
         (0 <? k)%nat && match r'' with [] => true | _ => false end)
    end.

(** INTEGER affinity on a bound text, where the outcome is found without
    floating point: a decimal integer literal within 64 bits, or a
    decimal of at most 15 digits with no fraction digit other than 0, in
    both cases with optional sign and with white space allowed at both
    ends, becomes that integer; a text that is no number stays as it is.
    [None] is for the numbers left: those SQLite reads in floating point
    (an exponent, a fraction digit other than 0, an integer beyond 64
    bits, a decimal of more than 15 digits) and stores as a real or as
    the integer that the floating-point value equals. *)
Definition affinity (s : string) : option value :=
    match integer_literal (trim s) with
    | Some z => if int64 z then Some (Int z) else None
    | None =>
        match whole_decimal (trim s) with
        | Some z => Some (Int z)
        | None => if is_number s then None else Some (Text s)
        end
    end.

End Sql.

(** ** Data model ([data_models.py]) *)

Module Author.
Record t : Type := {
  id : Z;
  name : string;
  birth_date : option string;
  date_of_death : option string
}.
End Author.

(** [publication_year] and [author_id] are declared [Integer]; [add_book]
    binds the form's text to them, and SQLite keeps in such a column whatever
    its INTEGER affinity makes of the bound text. *)
Module Book.
Record t : Type := {
  id : Z;
  isbn : string;
  title : string;
  publication_year : Sql.value;
  author_id : Sql.value
}.
End Book.

(** The two tables, rows in rowid order. *)
Record Store : Type := {
  authors : list Author.t;
  books : list Book.t
}.

(** What belongs to the SQLite connection and not to the repository:
    whether [PRAGMA foreign_keys] is on, and the coercion that INTEGER
    affinity applies to a bound text. *)
Record Engine : Type := {
  foreign_keys : bool;
  integer_affinity : string -> Sql.value
}.

(** An engine with SQLite's default of foreign keys not enforced.  Its
    coercion is [Sql.affinity] where that is defined.  The numbers that
    SQLite reads in floating point are outside what this engine models:
    it keeps them as the text they came in, which is not what SQLite
    stores, and nothing below submits one to it. *)
Definition sqlite_default : Engine := {|
  foreign_keys := false;
  integer_affinity := fun s =>
    match Sql.affinity s with
    | Some v => v
    | None => Sql.Text s
    end
|}.

(** ** The session: unit of work, transaction, durable tables *)

(** Objects registered with [db.session.add] / [db.session.delete]. *)
Inductive op : Type :=
| AddAuthor (name birth_date : string) (date_of_death : option string)
| AddBook (isbn title publication_year author_id : string)
| DeleteBook (id : Z)
| DeleteAuthor (id : Z).

(** A flashed message: [(category, message)]. *)
Definition flash_t : Type := (string * string)%type.

Record World : Type := {
  durable : Store;          (* what a new connection would read *)
  txn : Store;              (* the open transaction's view *)
  pending : list op;        (* registered, not yet flushed *)
  flashes : list flash_t;   (* session['_flashes'] *)
  journal : list Store      (* the durable tables after each commit *)
}.

Inductive Outcome (A : Type) : Type :=
| Ok (a : A)
| Raise (e : Py.exn).
Arguments Ok {A} a.
Arguments Raise {A} e.

Definition M (A : Type) : Type := World -> Outcome A * World.

Definition ret {A} (a : A) : M A := fun w => (Ok a, w).

Definition bind {A B} (m : M A) (k : A -> M B) : M B :=
  fun w => match m w with
           | (Ok a, w') => k a w'
           | (Raise e, w') => (Raise e, w')
           end.

Definition raise {A} (e : Py.exn) : M A := fun w => (Raise e, w).

(** [try: body except ValueError: handler] *)
Definition try_except_ValueError {A} (body handler : M A) : M A :=
  fun w => match body w with
           | (Raise Py.ValueError, w') => handler w'
           | r => r
           end.

Declare Scope monad_scope.
Delimit Scope monad_scope with monad.
Notation "x <- m ;; k" := (bind m (fun x => k))
  (at level 61, m at next level, right associativity) : monad_scope.
Notation "m ;; k" := (bind m (fun _ => k))
  (at level 61, right associativity) : monad_scope.
Local Open Scope monad_scope.

(** A rowid for a new row: one more than the largest in use, 1 in an empty
    table.  (Rowids end at 2^63 - 1; a table that holds that rowid is
    given an unused one at random, which this function does not
    produce.) *)
Definition next_rowid (ids : list Z) : Z :=
  match ids with
  | [] => 1
  | i :: rest => fold_left Z.max rest i + 1
  end.

Definition references (aid : Z) (b : Book.t) : bool :=
  Sql.value_eqb (Book.author_id b) (Sql.Int aid).

Section Storage.
Variable E : Engine.

(** One flushed statement; [None] is a constraint violation. *)
Definition apply_op (st : Store) (o : op) : option Store :=
  match o with
  | AddAuthor n b d =>
      let a := {| Author.id := next_rowid (map Author.id (authors st));
                  Author.name := n;
                  Author.birth_date := Some b;
                  Author.date_of_death := d |} in
      Some {| authors := authors st ++ [a]; books := books st |}
  | AddBook i t y a =>
      let aid := integer_affinity E a in
      (* isbn: unique=True *)
      if existsb (fun b => String.eqb (Book.isbn b) i) (books st) then None
      (* author_id: nullable=False *)
      else if match aid with Sql.Null => true | _ => false end then None
      (* author_id: ForeignKey('authors.id'), when the engine enforces it *)
      else if foreign_keys E &&
              negb (existsb (fun au => Sql.value_eqb aid (Sql.Int (Author.id au)))
                            (authors st))
      then None
      else
        let b := {| Book.id := next_rowid (map Book.id (books st));
                    Book.isbn := i;
                    Book.title := t;
                    Book.publication_year := integer_affinity E y;
                    Book.author_id := aid |} in
        Some {| authors := authors st; books := books st ++ [b] |}
  | DeleteBook i =>
      Some {| authors := authors st;
              books := filter (fun b => negb (Z.eqb (Book.id b) i)) (books st) |}
  | DeleteAuthor i =>
      (* the [books] relationship has no delete cascade: rows that still
         reference the author would have author_id set to NULL, which
         nullable=False refuses *)
      if existsb (references i) (books st) then None
      else
        Some {| authors := filter (fun a => negb (Z.eqb (Author.id a) i)) (authors st);
                books := books st |}
  end.

Fixpoint apply_ops (st : Store) (ops : list op) : option Store :=
  match ops with
  | [] => Some st
  | o :: rest =>
      match apply_op st o with
      | Some st' => apply_ops st' rest
      | None => None
      end
  end.

(** [session.flush()]: a failed flush rolls the transaction back. *)
Definition flush : M unit :=
  fun w =>
    match apply_ops (txn w) (pending w) with
    | Some st =>
        (Ok tt, {| durable := durable w; txn := st; pending := [];
                   flashes := flashes w; journal := journal w |})
    | None =>
        (Raise Py.IntegrityError,
         {| durable := durable w; txn := durable w; pending := [];
            flashes := flashes w; journal := journal w |})
    end.

(** [db.session.commit()] *)
Definition session_commit : M unit :=
  flush ;;
  fun w => (Ok tt, {| durable := txn w; txn := txn w; pending := pending w;
                      flashes := flashes w; journal := journal w ++ [txn w] |}).

(** [db.session.add(obj)] and [db.session.delete(obj)] *)
Definition session_register (o : op) : M unit :=
  fun w => (Ok tt, {| durable := durable w; txn := txn w;
                      pending := pending w ++ [o];
                      flashes := flashes w; journal := journal w |}).

(** Running a query: the session flushes first, then the statement reads
    the transaction's view. *)
Definition query {A} (q : Store -> A) : M A :=
  flush ;; fun w => (Ok (q (txn w)), w).

End Storage.

(** [flash(message, category)] *)
Definition flash (message category : string) : M unit :=
  fun w => (Ok tt, {| durable := durable w; txn := txn w; pending := pending w;
                      flashes := flashes w ++ [(category, message)];
                      journal := journal w |}).

(** ** Requests and responses *)

Inductive Method : Type := GET | POST.

(** [request.args] and [request.form] are multi-dicts: [get] answers the
    first value stored under the key. *)
Record Request : Type := {
  method : Method;
  args : list (string * string);
  form : list (string * string)
}.

Fixpoint multidict_get (k : string) (d : list (string * string)) : option string :=
  match d with
  | [] => None
  | (k', v) :: rest => if String.eqb k' k then Some v else multidict_get k rest
  end.

(** [d.get(k, default)] *)
Definition get_default (d : list (string * string)) (k default : string) : string :=
  match multidict_get k d with
  | Some v => v
  | None => default
  end.

(** A listed book: the [Book] entity and the [Author] row it is joined to
    (what the template reads as [book.author]). *)
Definition Row : Type := (Book.t * Author.t)%type.

Inductive Response : Type :=
| redirect (endpoint : string)
| render_home (books : list Row) (search_query : option string)
| render_add_author
| render_add_book (authors : list Author.t).

(** ** Query expressions *)

(** [Book.query.join(Author)]: inner join on [books.author_id = authors.id]. *)
Definition join (st : Store) : list Row :=
  flat_map (fun b => map (fun a => (b, a))
                         (filter (fun a => references (Author.id a) b) (authors st)))
           (books st).

(** [Book.title.ilike(f"%{q}%") | Author.name.ilike(f"%{q}%")] *)
Definition matches (q : string) (r : Row) : bool :=
  let pattern := "%" ++ q ++ "%" in
  Sql.ilike (Book.title (fst r)) pattern || Sql.ilike (Author.name (snd r)) pattern.

Inductive column : Type := Book_title | Author_name.

Definition cell (c : column) (r : Row) : string :=
  match c with
  | Book_title => Book.title (fst r)
  | Author_name => Author.name (snd r)
  end.

(** [column.asc()] and [column.desc()]; a bare column orders ascending. *)
Inductive ordering : Type := asc (c : column) | desc (c : column).

(** Text is compared byte by byte (the BINARY collation). *)
Definition precedes (o : ordering) (r1 r2 : Row) : bool :=
  match o with
  | asc c => String.leb (cell c r1) (cell c r2)
  | desc c => String.leb (cell c r2) (cell c r1)
  end.

Section Sorting.
Context {A : Type} (leb : A -> A -> bool).

Fixpoint insert (x : A) (l : list A) : list A :=
  match l with
  | [] => [x]
  | y :: l' => if leb x y then x :: l else y :: insert x l'
  end.

Fixpoint sort (l : list A) : list A :=
  match l with
  | [] => []
  | x :: l' => insert x (sort l')
  end.

End Sorting.

(** [query.order_by(o)] *)
Definition order_by (o : ordering) (rows : list Row) : list Row :=
  sort (precedes o) rows.

(** [Book.query.get(id)] *)
Definition Book_get (i : Z) (st : Store) : option Book.t :=
  find (fun b => Z.eqb (Book.id b) i) (books st).

(** Binding the integer [i] to a statement: outside 64 bits the driver
    raises [OverflowError]. *)
Definition bind_int (i : Z) : M unit :=
  if Sql.int64 i then ret tt else raise Py.OverflowError.

(** [Author.query.get(v)], [v] being what Python read from
    [book.author_id]. *)
Definition Author_get (v : Sql.value) (st : Store) : option Author.t :=
  find (fun a => Sql.value_eqb v (Sql.Int (Author.id a))) (authors st).

(** The criterion of [filter_by(author_id=v)]; [None] renders as IS NULL. *)
Definition author_id_is (v : Sql.value) (b : Book.t) : bool :=
  match v with
  | Sql.Null => match Book.author_id b with Sql.Null => true | _ => false end
  | _ => Sql.value_eqb (Book.author_id b) v
  end.

(** [Book.query.filter_by(author_id=v).count()] *)
Definition Book_count_by_author (v : Sql.value) (st : Store) : Z :=
  Z.of_nat (List.length (filter (author_id_is v) (books st))).

(** The query that [home] builds in lines 32-47. *)
Definition home_books_query (search_query sort_by direction : string)
                            (st : Store) : list Row :=
  let books_query := join st in
  let books_query :=
    if Py.truthy search_query
    then filter (matches search_query) books_query
    else books_query in
  if String.eqb sort_by "author"
  then order_by (if String.eqb direction "asc"
                 then asc Author_name else desc Author_name) books_query
  else order_by (if String.eqb direction "asc"
                 then asc Book_title else desc Book_title) books_query.

(** The query that [library_home] builds in lines 159-169. *)
Definition library_books_query (sort_by direction : string)
                               (st : Store) : list Row :=
  let sort_by :=
    if negb (existsb (String.eqb sort_by) ["title"; "author"])
    then "title" else sort_by in
  let order := if String.eqb sort_by "title" then Book_title else Author_name in
  let order := if String.eqb direction "desc" then desc order else asc order in
  order_by order (join st).

(** ** Module globals of [app.py] *)

(** Names bound at module level by the imports, assignments and [def]s. *)
Definition app_globals : list string :=
  ["Flask"; "render_template"; "request"; "redirect"; "url_for"; "flash";
   "SQLAlchemy"; "os"; "db"; "Author"; "Book"; "basedir"; "app";
   "home"; "add_author"; "add_book"; "clear_flash"; "library_home";
   "delete_book"].

(** Evaluating a global name; a name that is neither bound in the module
    nor a built-in raises [NameError]. *)
Definition load_global (name : string) : M string :=
  if existsb (String.eqb name) app_globals
  then ret name
  else raise (Py.NameError name).

(** Calling [obj.delete(...)] on a module global: none of them is a
    session, none has such a method on a model instance. *)
Definition call_delete (obj : string) : M unit :=
  raise (Py.AttributeError "delete").

(** ** The handlers of [app.py] *)

Section Handlers.
Variable E : Engine.

(** [Book.query.get(i)] for an id [i] that came with the request.  A
    stored row is answered, from the session or by the SELECT; rowids are
    64-bit, so an id outside that range names no row, and binding it to
    the SELECT raises. *)
Definition Book_query_get (i : Z) : M (option Book.t) :=
  found <- query E (Book_get i) ;;
  match found with
  | Some book => ret (Some book)
  | None => bind_int i ;; ret None
  end.

(** [home], route [/], methods GET and POST. *)
Definition home (req : Request) : M Response :=
  let search_query := Py.strip (get_default (args req) "search" EmptyString) in
  let sort_by := get_default (args req) "sort_by" "title" in
  let direction := get_default (args req) "direction" "asc" in
  books <- query E (home_books_query search_query sort_by direction) ;;
  match method req with
  | POST =>
      let book_id_to_delete := multidict_get "delete_book_id" (form req) in
      (match book_id_to_delete with
       | Some text =>
           if Py.truthy text then
             try_except_ValueError
               (book_id_to_delete <-
                  match Py.int text with
                  | Some n => ret n
                  | None => raise Py.ValueError
                  end ;;
                book_to_delete <- Book_query_get book_id_to_delete ;;
                match book_to_delete with
                | Some book =>
                    let author_id := Book.author_id book in
                    session_register (DeleteBook (Book.id book)) ;;
                    session_commit E ;;
                    remaining_books <- query E (Book_count_by_author author_id) ;;
                    (if Z.eqb remaining_books 0 then
                       author_to_delete <- query E (Author_get author_id) ;;
                       match author_to_delete with
                       | Some author =>
                           session_register (DeleteAuthor (Author.id author)) ;;
                           session_commit E
                       | None => ret tt
                       end
                     else ret tt) ;;
                    flash "Book successfully deleted!" "success"
                | None => flash "Book ID not found!" "error"
                end)
               (flash "Invalid book ID!" "error")
           else ret tt
       | None => ret tt
       end) ;;
      ret (redirect "home")
  | GET => ret (render_home books (Some search_query))
  end.

(** [add_author], route [/add_author], methods GET and POST. *)
Definition add_author (req : Request) : M Response :=
  match method req with
  | POST =>
      let name := multidict_get "name" (form req) in
      let birth_date := multidict_get "birthdate" (form req) in
      let date_of_death := multidict_get "date_of_death" (form req) in
      (match name, birth_date with
       | Some n, Some b =>
           if negb (Py.truthy n) || negb (Py.truthy b) then
             flash "Please insert all required dates." "message"
           else
             session_register (AddAuthor n b date_of_death) ;;
             session_commit E ;;
             flash "Author successfully added!" "message"
       | _, _ => flash "Please insert all required dates." "message"
       end) ;;
      flash "Author successfully added!" "success" ;;
      ret (redirect "add_author")
  | GET => ret render_add_author
  end.

(** [add_book], route [/add_book], methods GET and POST. *)
Definition add_book (req : Request) : M Response :=
  authors <- query E authors ;;
  match method req with
  | POST =>
      let isbn := multidict_get "isbn" (form req) in
      let title := multidict_get "title" (form req) in
      let publication_year := multidict_get "publication_year" (form req) in
      let author_id := multidict_get "author_id" (form req) in
      (match isbn, title, publication_year, author_id with
       | Some i, Some t, Some y, Some a =>
           if negb (Py.truthy i) || negb (Py.truthy t) ||
              negb (Py.truthy y) || negb (Py.truthy a) then
             flash "Please fill in all fields." "message"
           else
             session_register (AddBook i t y a) ;;
             session_commit E ;;
             flash "Book successfully added!" "message"
       | _, _, _, _ => flash "Please fill in all fields." "message"
       end) ;;
      ret (redirect "add_book")
  | GET => ret (render_add_book authors)
  end.

(** [library_home], route [/library] (GET only; the router refuses other
    methods before the handler runs). *)
Definition library_home (req : Request) : M Response :=
  let sort_by := get_default (args req) "sort_by" "title" in
  let direction := get_default (args req) "direction" "asc" in
  books <- query E (library_books_query sort_by direction) ;;
  ret (render_home books None).

(** [delete_book], route [/book/<int:book_id>/delete], POST. *)
Definition delete_book (book_id : Z) : M Response :=
  book <- Book_query_get book_id ;;
  (match book with
   | Some b =>
       (* author = book.author: the relationship loads the referenced row *)
       author <- query E (Author_get (Book.author_id b)) ;;
       (* db, session.delete(book): a tuple display of two expressions *)
       _ <- load_global "db" ;;
       session <- load_global "session" ;;
       call_delete session ;;
       (* db.session.commit: the attribute is read and not called *)
       ret tt ;;
       match author with
       | None => raise (Py.AttributeError "id")
       | Some a =>
           remaining_books <-
             query E (Book_count_by_author (Sql.Int (Author.id a))) ;;
           (if Z.eqb remaining_books 0 then
              session_register (DeleteAuthor (Author.id a)) ;;
              session_commit E
            else ret tt) ;;
           flash "Book deleted!" "success"
       end
   | None => flash "Book not found." "danger"
   end) ;;
  ret (redirect "home").

(** One request against the tables [st] with flash queue [fl]: the
    handler runs in a new session; at teardown the session is removed, so
    work that was not committed is dropped.  The answer carries the
    handler's outcome, the durable tables, the flash queue and the tables
    after each commit, in order. *)
Definition serve (h : M Response) (st : Store) (fl : list flash_t)
  : Outcome Response * Store * list flash_t * list Store :=
  let w0 := {| durable := st; txn := st; pending := [];
               flashes := fl; journal := [] |} in
  let '(r, w) := h w0 in
  (r, durable w, flashes w, journal w).

End Handlers.

(** ** Vocabulary of the specification *)




Definition row_title (r : Row) : string := Book.title (fst r).
Definition row_author (r : Row) : string := Author.name (snd r).

(** A listing in ascending, respectively descending, order of a key. *)
Definition ascending_by (key : Row -> string) (l : list Row) : Prop :=
  StronglySorted (fun r1 r2 => String.leb (key r1) (key r2) = true) l.

Definition descending_by (key : Row -> string) (l : list Row) : Prop :=
  StronglySorted (fun r1 r2 => String.leb (key r2) (key r1) = true) l.

(** The sort key that a [sort_by] value selects: ["author"] the author's
    name, ["title"] the title, anything else the title as well. *)
Inductive selects : string -> (Row -> string) -> Prop :=
| selects_author : selects "author" row_author
| selects_title : selects "title" row_title
| selects_fallback s :
    s <> "author" -> s <> "title" -> selects s row_title.

(** Primary keys are unique in a table. *)
Fixpoint distinct (ids : list Z) : bool :=
  match ids with
  | [] => true
  | i :: rest => negb (existsb (Z.eqb i) rest) && distinct rest
  end.

(** Every book references a stored author. *)
Definition referential (st : Store) : Prop :=
  forall b, In b (books st) ->
    exists a, In a (authors st) /\ Book.author_id b = Sql.Int (Author.id a).

(** The tables with the book rows, respectively author rows, of one id
    left out. *)
Definition without_book (i : Z) (st : Store) : Store :=
  {| authors := authors st;
     books := filter (fun b => negb (Z.eqb (Book.id b) i)) (books st) |}.

Definition without_author (i : Z) (st : Store) : Store :=
  {| authors := filter (fun a => negb (Z.eqb (Author.id a) i)) (authors st);
     books := books st |}.

(** The reading of the deletion as one atomic step: at no commit point of
    the request is the book [B] gone while its author [A] is still
    stored. *)
Definition cascade_is_atomic (E : Engine) (st : Store) (req : Request)
                             (B : Book.t) (A : Author.t) : Prop :=
  forall r st' fl' commits,
    serve (home E req) st [] = (r, st', fl', commits) ->
    forall snapshot, In snapshot commits ->
      ~ In B (books snapshot) -> ~ In A (authors snapshot).

(** The reading of a constraint violation as a handled condition: the
    handler answers, the books table is as before, and a message is
    flashed. *)
Definition violation_is_handled (E : Engine) (st : Store) (req : Request) : Prop :=
  exists resp st' fl' commits,
    serve (add_book E req) st [] = (Ok resp, st', fl', commits) /\
    books st' = books st /\
    fl' <> [].

(** The default engine with [PRAGMA foreign_keys = ON]. *)
Definition sqlite_foreign_keys_on : Engine :=
  {| foreign_keys := true;
     integer_affinity := integer_affinity sqlite_default |}.


(** The first character of a list is not a continuation byte on its
    own. *)
Definition closed_head (l : list string) : Prop :=
  match l with
  | String c EmptyString :: _ => Utf8.continuation c = false
  | _ => True
  end.



(** A text, as its characters, matches a LIKE pattern, as its characters:
    a percent sign stands for any run of characters, an underscore for
    any one character, every other character for itself. *)
Inductive like_pattern : list string -> list string -> Prop :=
| like_end : like_pattern [] []
| like_any p t u :
    like_pattern p u -> like_pattern ("%" :: p) (t ++ u)
| like_one p c t :
    like_pattern p t -> like_pattern ("_" :: p) (c :: t)
| like_same c p t :
    c <> "%" -> c <> "_" ->
    like_pattern p t -> like_pattern (c :: p) (c :: t).

(** [text] matches [pattern], the case of ASCII letters ignored and both
    read up to their first NUL. *)
Definition like_ci (pattern text : string) : Prop :=
  like_pattern (Utf8.chars (Sql.cstring (Sql.lower pattern)))
               (Utf8.chars (Sql.cstring (Sql.lower text))).

(** The row [r] is one that a search for [S] selects: [S] is empty, or
    the title or the author's name matches the pattern [%S%]. *)
Definition selected (S : string) (r : Row) : Prop :=
  S = EmptyString \/
  like_ci ("%" ++ S ++ "%") (row_title r) \/
  like_ci ("%" ++ S ++ "%") (row_author r).



(** The reading of the two listings as holding the same rows whatever
    the request. *)
Definition fallbacks_list_same_rows (E : Engine) (st : Store) (req : Request) : Prop :=
  forall rows_home rows_library q q',
    serve (home E req) st [] = (Ok (render_home rows_home q), st, [], []) ->
    serve (library_home E req) st [] =
      (Ok (render_home rows_library q'), st, [], []) ->
    Permutation rows_home rows_library.

(** ** Sample data *)

Definition herbert : Author.t :=
  {| Author.id := 1; Author.name := "Frank Herbert";
     Author.birth_date := Some "1920-10-08";
     Author.date_of_death := Some "1986-02-11" |}.

Definition le_guin : Author.t :=
  {| Author.id := 2; Author.name := "Ursula K. Le Guin";
     Author.birth_date := Some "1929-10-21";
     Author.date_of_death := Some "2018-01-22" |}.

Definition dune : Book.t :=
  {| Book.id := 1; Book.isbn := "111"; Book.title := "Dune";
     Book.publication_year := Sql.Int 1965; Book.author_id := Sql.Int 1 |}.

Definition earthsea : Book.t :=
  {| Book.id := 2; Book.isbn := "222"; Book.title := "A Wizard of Earthsea";
     Book.publication_year := Sql.Int 1968; Book.author_id := Sql.Int 2 |}.

Definition dispossessed : Book.t :=
  {| Book.id := 3; Book.isbn := "333"; Book.title := "The Dispossessed";
     Book.publication_year := Sql.Int 1974; Book.author_id := Sql.Int 2 |}.

Definition library : Store :=
  {| authors := [herbert; le_guin]; books := [dune; earthsea; dispossessed] |}.

Definition post_form (f : list (string * string)) : Request :=
  {| method := POST; args := []; form := f |}.

Definition get_args (a : list (string * string)) : Request :=
  {| method := GET; args := a; form := [] |}.

(** ** The remaining handler and the string methods of the models *)

(** [clear_flash], route [/clear_flash], POST: drops the flash queue and
    answers an empty body with status 204. *)
Definition clear_flash : M (string * Z) :=
  session <- load_global "session" ;;
  (* session.pop('_flashes', None) *)
  (fun w => (Ok tt, {| durable := durable w; txn := txn w;
                       pending := pending w; flashes := [];
                       journal := journal w |})) ;;
  ret (EmptyString, 204).

Module Format.

(** [str(n)] for an [int]: decimal digits, a minus sign when negative. *)
Definition str_int (n : Z) : string :=
    NilZero.string_of_int (Z.to_int n).

(** An optional text inside an f-string: [None] prints as its name. *)
Definition str_opt (o : option string) : string :=
    match o with
    | Some s => s
    | None => "None"
    end.

(** What Python reads from a cell of an INTEGER-affinity column, inside an
    f-string. *)
Definition str_value (v : Sql.value) : string :=
    match v with
    | Sql.Null => "None"
    | Sql.Int z => str_int z
    | Sql.Real repr => repr
    | Sql.Text s => s
    end.

End Format.

(** [Author.__repr__] *)
Definition Author_repr (a : Author.t) : string :=
  "<Author(id=" ++ Format.str_int (Author.id a) ++
  ", name=" ++ Author.name a ++ ")>".

(** [Author.__str__] *)
Definition Author_str (a : Author.t) : string :=
  Author.name a ++ " (" ++ Format.str_opt (Author.birth_date a) ++
  " - " ++ Format.str_opt (Author.date_of_death a) ++ ")".

(** [Book.__repr__] *)
Definition Book_repr (b : Book.t) : string :=
  "<Book(id=" ++ Format.str_int (Book.id b) ++
  ", title=" ++ Book.title b ++
  ", author_id=" ++ Format.str_value (Book.author_id b) ++ ")>".

(** [Book.__str__]: [self.author] loads the referenced author row from the
    tables; when there is none it is [None], and reading [.name] of it
    raises. *)
Definition Book_str (st : Store) (b : Book.t) : Outcome string :=
  match Author_get (Book.author_id b) st with
  | Some author =>
      Ok ("'" ++ Book.title b ++ "' (" ++
          Format.str_value (Book.publication_year b) ++ ") by " ++
          Author.name author)
  | None => Raise (Py.AttributeError "name")
  end.

(** ** Further vocabulary *)

(** What the schema declares of the tables: primary keys are unique, and
    so is [isbn]. *)
Definition well_formed (st : Store) : Prop :=
  distinct (map Author.id (authors st)) = true /\
  distinct (map Book.id (books st)) = true /\
  NoDup (map Book.isbn (books st)).

(** [s] is made of white space only. *)
Definition all_space (s : string) : bool :=
  forallb Py.isspace (Utf8.chars s).

(** Every byte of [s] is below 128. *)
Fixpoint ascii_only (s : string) : bool :=
  match s with
  | EmptyString => true
  | String c s' => (N_of_ascii c <? 128)%N && ascii_only s'
  end.

Fixpoint all_percent (s : string) : bool :=
  match s with
  | EmptyString => true
  | String c s' => Ascii.eqb c "%" && all_percent s'
  end.

Fixpoint all_digits (s : string) : bool :=
  match s with
  | EmptyString => true
  | String c s' => Py.isdigit c && all_digits s'
  end.

(** The rows of a listing that show the book with id [i]. *)
Definition rows_of_book (i : Z) (rows : list Row) : list Row :=
  filter (fun r => Z.eqb (Book.id (fst r)) i) rows.

(** What the schema refuses of a new book with the submitted [isbn] and
    [author_id]: an isbn already stored, a NULL author_id, or, when the
    engine enforces foreign keys, an author_id that is no stored author's
    id. *)
Definition constraint_violation (E : Engine) (st : Store)
                                (isbn author_id : string) : Prop :=
  (exists b, In b (books st) /\ Book.isbn b = isbn) \/
  integer_affinity E author_id = Sql.Null \/
  (foreign_keys E = true /\
   forall au, In au (authors st) ->
     integer_affinity E author_id <> Sql.Int (Author.id au)).

(** The character [c] does not occur in [s]. *)
Fixpoint free_of (c : ascii) (s : string) : bool :=
  match s with
  | EmptyString => true
  | String d s' => negb (Ascii.eqb d c) && free_of c s'
  end.

(** * Properties *)

(** ** The built-ins on concrete inputs *)

Example int_strips_whitespace : Py.int " 42 " = Some 42.
Proof. vm_compute. reflexivity. Qed.

Example int_signed_with_underscores : Py.int "-1_000" = Some (-1000).
Proof. vm_compute. reflexivity. Qed.

Example int_rejects_letters : Py.int "4x" = None.
Proof. vm_compute. reflexivity. Qed.

Example int_rejects_empty : Py.int EmptyString = None.
Proof. reflexivity. Qed.

Example int_strips_unicode_spaces : Py.int (Utf8.encode 160 ++ "7") = Some 7.
Proof. vm_compute. reflexivity. Qed.

Example int_keeps_separators : Py.int (Utf8.byte 28 ++ "7") = None.
Proof. vm_compute. reflexivity. Qed.

Example strip_both_ends : Py.strip "  a b  " = "a b".
Proof. vm_compute. reflexivity. Qed.

Example ilike_ignores_case : Sql.ilike "Dune" "%UN%" = true.
Proof. vm_compute. reflexivity. Qed.

Example ilike_underscore_is_any_character : Sql.ilike "Dune" "d_ne" = true.
Proof. vm_compute. reflexivity. Qed.

Example ilike_is_anchored : Sql.ilike "Dune" "un" = false.
Proof. vm_compute. reflexivity. Qed.

Example strip_unicode_spaces :
  Py.strip (Utf8.encode 160 ++ "a" ++ Utf8.encode 12288) = "a".
Proof. vm_compute. reflexivity. Qed.

Example strip_keeps_zero_width_space :
  Py.strip (Utf8.encode 8203 ++ "a") = Utf8.encode 8203 ++ "a".
Proof. vm_compute. reflexivity. Qed.

Example ilike_underscore_is_one_character_not_one_byte :
  Sql.ilike ("D" ++ Utf8.encode 252 ++ "ne") "d_ne" = true /\
  Sql.ilike ("D" ++ Utf8.encode 252 ++ "ne") "d__ne" = false.
Proof. vm_compute. split; reflexivity. Qed.

Example ilike_lowers_ascii_only :
  Sql.ilike (Utf8.encode 196 ++ "b") (Utf8.encode 228 ++ "b") = false.
Proof. vm_compute. reflexivity. Qed.

Example ilike_stops_at_nul :
  Sql.ilike "Dune" ("dune" ++ Utf8.byte 0 ++ "x") = true.
Proof. vm_compute. reflexivity. Qed.

Example affinity_of_integer_literals :
  Sql.affinity "1961" = Some (Sql.Int 1961) /\
  Sql.affinity " 1961" = Some (Sql.Int 1961) /\
  Sql.affinity "-0" = Some (Sql.Int 0) /\
  Sql.affinity "+5" = Some (Sql.Int 5) /\
  Sql.affinity "9223372036854775807" = Some (Sql.Int 9223372036854775807) /\
  Sql.affinity "9223372036854775808" = None.
Proof. vm_compute. repeat split; reflexivity. Qed.

Example affinity_of_decimals :
  Sql.affinity "2.0" = Some (Sql.Int 2) /\
  Sql.affinity "2." = Some (Sql.Int 2) /\
  Sql.affinity "-.0" = Some (Sql.Int 0) /\
  Sql.affinity "1961.5" = None /\
  Sql.affinity "1e3" = None.
Proof. vm_compute. repeat split; reflexivity. Qed.

Example affinity_of_other_text :
  Sql.affinity "abc" = Some (Sql.Text "abc") /\
  Sql.affinity "." = Some (Sql.Text ".") /\
  Sql.affinity "1e" = Some (Sql.Text "1e") /\
  Sql.affinity "0x10" = Some (Sql.Text "0x10") /\
  Sql.affinity "1 2" = Some (Sql.Text "1 2") /\
  Sql.affinity "-" = Some (Sql.Text "-").
Proof. vm_compute. repeat split; reflexivity. Qed.

Example next_rowid_of_library :
  next_rowid (map Book.id (books library)) = 4.
Proof. reflexivity. Qed.

(** ** Byte order on text *)

Lemma string_leb_trans (a b c : string) :
  String.leb a b = true -> String.leb b c = true -> String.leb a c = true.
Proof.
  unfold String.leb. revert b c.
  induction a as [|x a IH]; intros [|y b] [|z c]; simpl; try congruence.
  unfold Ascii.compare.
  destruct (N.compare_spec (N_of_ascii x) (N_of_ascii y)) as [Hxy|Hxy|Hxy];
    destruct (N.compare_spec (N_of_ascii y) (N_of_ascii z)) as [Hyz|Hyz|Hyz];
    try congruence; intros H1 H2.
  - rewrite Hxy, Hyz, N.compare_refl. eauto.
  - rewrite Hxy. apply N.compare_lt_iff in Hyz. now rewrite Hyz.
  - rewrite <- Hyz. apply N.compare_lt_iff in Hxy. now rewrite Hxy.
  - assert (Hxz : (N_of_ascii x < N_of_ascii z)%N) by lia.
    apply N.compare_lt_iff in Hxz. now rewrite Hxz.
Qed.

(** ** Insertion sort *)

Section SortFacts.
Context {A : Type} (leb : A -> A -> bool).
Hypothesis leb_total : forall x y, leb x y = true \/ leb y x = true.
Hypothesis leb_trans :
  forall x y z, leb x y = true -> leb y z = true -> leb x z = true.

Let le (x y : A) : Prop := leb x y = true.

Lemma insert_perm (x : A) (l : list A) : Permutation (insert leb x l) (x :: l).
Proof.
  induction l as [|y l IH]; simpl; [reflexivity|].
  destruct (leb x y); [reflexivity|].
  rewrite IH. apply perm_swap.
Qed.

Lemma sort_perm (l : list A) : Permutation (sort leb l) l.
Proof.
  induction l as [|x l IH]; simpl; [constructor|].
  rewrite insert_perm. now constructor.
Qed.

Lemma insert_sorted (x : A) (l : list A) :
  StronglySorted le l -> StronglySorted le (insert leb x l).
Proof.
  induction 1 as [|y l Hs IH Hy]; simpl.
  - repeat constructor.
  - destruct (leb x y) eqn:Hxy.
    + constructor; [now constructor|].
      constructor; [exact Hxy|].
      eapply Forall_impl; [|exact Hy].
      intros z Hz. exact (leb_trans _ _ _ Hxy Hz).
    + constructor; [exact IH|].
      assert (Hyx : le y x) by (destruct (leb_total x y); congruence).
      eapply Permutation_Forall; [symmetry; apply insert_perm|].
      now constructor.
Qed.

Lemma sort_sorted (l : list A) : StronglySorted le (sort leb l).
Proof.
  induction l as [|x l IH]; simpl; [constructor|].
  now apply insert_sorted.
Qed.

End SortFacts.

Lemma order_by_perm (o : ordering) (rows : list Row) :
  Permutation (order_by o rows) rows.
Proof. apply sort_perm. Qed.

Lemma order_by_asc (c : column) (rows : list Row) :
  ascending_by (cell c) (order_by (asc c) rows).
Proof.
  unfold ascending_by, order_by.
  apply (sort_sorted (precedes (asc c))); simpl.
  - intros x y. apply String.leb_total.
  - intros x y z. apply string_leb_trans.
Qed.

Lemma order_by_desc (c : column) (rows : list Row) :
  descending_by (cell c) (order_by (desc c) rows).
Proof.
  unfold descending_by, order_by.
  apply (sort_sorted (precedes (desc c))); simpl.
  - intros x y. apply String.leb_total.
  - intros x y z H1 H2. exact (string_leb_trans _ _ _ H2 H1).
Qed.

(** ** The listing handlers *)

Section Listing.
Variable E : Engine.
Variables (st : Store) (fl : list flash_t) (req : Request).

Let search_query := Py.strip (get_default (args req) "search" EmptyString).
Let sort_by := get_default (args req) "sort_by" "title".
Let direction := get_default (args req) "direction" "asc".

Lemma home_get :
  method req = GET ->
  serve (home E req) st fl =
  (Ok (render_home (home_books_query search_query sort_by direction st)
                   (Some search_query)), st, fl, []).
Proof.
  intros Hm. unfold serve, home, query, flush, bind, ret. simpl.
  now rewrite Hm.
Qed.

Lemma library_get :
  serve (library_home E req) st fl =
  (Ok (render_home (library_books_query sort_by direction st) None),
   st, fl, []).
Proof. reflexivity. Qed.

End Listing.

(** Which column each handler sorts on. *)
Lemma home_books_query_order (st : Store) (q sb d : string) (key : Row -> string) :
  selects sb key ->
  exists c,
    key = cell c /\
    home_books_query q sb d st =
    order_by (if String.eqb d "asc" then asc c else desc c)
             (if Py.truthy q then filter (matches q) (join st) else join st).
Proof.
  intros Hsel. unfold home_books_query.
  destruct Hsel as [| |s Ha Ht].
  - exists Author_name. now split.
  - exists Book_title. now split.
  - exists Book_title. apply String.eqb_neq in Ha. rewrite Ha. now split.
Qed.

Lemma library_books_query_order (st : Store) (sb d : string) (key : Row -> string) :
  selects sb key ->
  exists c,
    key = cell c /\
    library_books_query sb d st =
    order_by (if String.eqb d "desc" then desc c else asc c) (join st).
Proof.
  intros Hsel. unfold library_books_query.
  destruct Hsel as [| |s Ha Ht].
  - exists Author_name. now split.
  - exists Book_title. now split.
  - exists Book_title.
    apply String.eqb_neq in Ha, Ht. simpl. rewrite Ht, Ha. simpl. now split.
Qed.

(** ** Keys and counting *)

Section Keys.
Context {A : Type} (key : A -> Z).

Lemma distinct_key_inj (l : list A) (x y : A) :
  distinct (map key l) = true ->
  In x l -> In y l -> key x = key y -> x = y.
Proof.
  induction l as [|z l IH]; simpl; [tauto|].
  intros Hd Hx Hy Hk. apply andb_true_iff in Hd as [Hz Hd].
  apply negb_true_iff in Hz.
  assert (Hfresh : forall w, In w l -> key z <> key w).
  { intros w Hw Heq.
    assert (existsb (Z.eqb (key z)) (map key l) = true); [|congruence].
    apply existsb_exists. exists (key w). split.
    - now apply in_map.
    - now apply Z.eqb_eq. }
  destruct Hx as [->|Hx], Hy as [->|Hy]; auto.
  - now apply Hfresh in Hk.
  - symmetry in Hk. now apply Hfresh in Hk.
Qed.

Lemma find_by_key (l : list A) (x : A) :
  distinct (map key l) = true -> In x l ->
  find (fun y => Z.eqb (key y) (key x)) l = Some x.
Proof.
  intros Hd Hx.
  destruct (find (fun y => Z.eqb (key y) (key x)) l) as [y|] eqn:Hf.
  - apply find_some in Hf as [Hy Hk]. apply Z.eqb_eq in Hk.
    f_equal. now apply (distinct_key_inj l).
  - apply (find_none _ _ Hf) in Hx. rewrite Z.eqb_refl in Hx. discriminate.
Qed.

Lemma find_absent (l : list A) (i : Z) :
  (forall x, In x l -> key x <> i) ->
  find (fun y => Z.eqb (key y) i) l = None.
Proof.
  intros Hno. induction l as [|z l IH]; simpl; [reflexivity|].
  destruct (Z.eqb_spec (key z) i) as [Heq|_].
  - exfalso. apply (Hno z); simpl; auto.
  - apply IH. intros x Hx. apply Hno. now right.
Qed.

Lemma at_most_one_with_key (l : list A) (i : Z) :
  distinct (map key l) = true ->
  (List.length (filter (fun y => Z.eqb (key y) i) l) <= 1)%nat.
Proof.
  induction l as [|z l IH]; simpl; [lia|].
  intros Hd. apply andb_true_iff in Hd as [Hz Hd].
  apply negb_true_iff in Hz. specialize (IH Hd).
  destruct (Z.eqb_spec (key z) i) as [Heq|_]; simpl; [|exact IH].
  assert (Hnone : filter (fun y => Z.eqb (key y) i) l = []).
  { destruct (filter (fun y => Z.eqb (key y) i) l) as [|w r] eqn:Hf; auto.
    assert (Hw : In w (filter (fun y => Z.eqb (key y) i) l))
      by (rewrite Hf; now left).
    apply filter_In in Hw as [Hw Hk]. apply Z.eqb_eq in Hk.
    assert (existsb (Z.eqb (key z)) (map key l) = true); [|congruence].
    apply existsb_exists. exists (key w). split.
    - now apply in_map.
    - apply Z.eqb_eq. congruence. }
  rewrite Hnone. simpl. lia.
Qed.

End Keys.

Lemma filter_length_split {A : Type} (p q : A -> bool) (l : list A) :
  List.length (filter p l) =
  (List.length (filter p (filter (fun x => negb (q x)) l)) +
   List.length (filter p (filter q l)))%nat.
Proof.
  induction l as [|x l IH]; simpl; [reflexivity|].
  destruct (q x) eqn:Hq, (p x) eqn:Hp; simpl; rewrite ?Hp; simpl; lia.
Qed.

Lemma filter_length_le {A : Type} (p : A -> bool) (l : list A) :
  (List.length (filter p l) <= List.length l)%nat.
Proof.
  induction l as [|x l IH]; simpl; [lia|].
  destruct (p x); simpl; lia.
Qed.

Lemma filter_empty_iff {A : Type} (p : A -> bool) (l : list A) :
  List.length (filter p l) = 0%nat <-> forall x, In x l -> p x = false.
Proof.
  induction l as [|x l IH]; simpl.
  - split; [tauto|reflexivity].
  - destruct (p x) eqn:Hp; simpl.
    + split; [discriminate|]. intros H. specialize (H x (or_introl eq_refl)).
      congruence.
    + rewrite IH. split.
      * intros H y [<-|Hy]; auto.
      * intros H y Hy. apply H. now right.
Qed.

Lemma value_eqb_Int (v : Sql.value) (i : Z) :
  Sql.value_eqb v (Sql.Int i) = true <-> v = Sql.Int i.
Proof.
  destruct v; simpl; split; try discriminate.
  - intros H. apply Z.eqb_eq in H. now subst.
  - intros H. injection H as ->. apply Z.eqb_refl.
Qed.

Lemma int_truthy (s : string) (n : Z) : Py.int s = Some n -> Py.truthy s = true.
Proof. destruct s; [discriminate|reflexivity]. Qed.

(** ** Deletion through the home page *)

Section HomeDelete.
Variable E : Engine.
Variables (st : Store) (fl : list flash_t) (req : Request).
Variables (text : string) (n : Z).
Hypothesis Hmethod : method req = POST.
Hypothesis Hform : multidict_get "delete_book_id" (form req) = Some text.
Hypothesis Hint : Py.int text = Some n.

(** The id names no row and is within 64 bits: one flash, nothing
    written. *)
Lemma home_post_absent :
  Book_get n st = None ->
  Sql.int64 n = true ->
  serve (home E req) st fl =
  (Ok (redirect "home"), st, (fl ++ [("error", "Book ID not found!")])%list, []).
Proof.
  intros Hget Hrange.
  unfold serve, home, Book_query_get, bind_int, query, flush, bind, ret,
    try_except_ValueError. simpl.
  rewrite Hmethod, Hform, (int_truthy _ _ Hint), Hint. simpl.
  now rewrite Hget, Hrange.
Qed.

(** The id names no row and is beyond 64 bits: the lookup raises, and
    the handler has no clause for it. *)
Lemma home_post_overflow :
  Book_get n st = None ->
  Sql.int64 n = false ->
  serve (home E req) st fl = (Raise Py.OverflowError, st, fl, []).
Proof.
  intros Hget Hrange.
  unfold serve, home, Book_query_get, bind_int, query, flush, bind, ret,
    raise, try_except_ValueError. simpl.
  rewrite Hmethod, Hform, (int_truthy _ _ Hint), Hint. simpl.
  now rewrite Hget, Hrange.
Qed.

(** The id names the row [b]: what is written, commit by commit. *)
Lemma home_post_present (b : Book.t) :
  Book_get n st = Some b ->
  let st1 := without_book (Book.id b) st in
  serve (home E req) st fl =
  if Z.eqb (Book_count_by_author (Book.author_id b) st1) 0 then
    match Author_get (Book.author_id b) st1 with
    | Some a =>
        (Ok (redirect "home"), without_author (Author.id a) st1,
         (fl ++ [("success", "Book successfully deleted!")])%list,
         [st1; without_author (Author.id a) st1])
    | None =>
        (Ok (redirect "home"), st1,
         (fl ++ [("success", "Book successfully deleted!")])%list, [st1])
    end
  else
    (Ok (redirect "home"), st1,
     (fl ++ [("success", "Book successfully deleted!")])%list, [st1]).
Proof.
  intros Hget st1. subst st1.
  unfold serve, home, Book_query_get, query, flush, bind, ret,
    try_except_ValueError. simpl.
  rewrite Hmethod, Hform, (int_truthy _ _ Hint), Hint. simpl.
  rewrite Hget. simpl.
  change {| authors := authors st;
            books := filter (fun x => negb (Z.eqb (Book.id x) (Book.id b)))
                            (books st) |}
    with (without_book (Book.id b) st).
  remember (without_book (Book.id b) st) as st1 eqn:Hst1.
  destruct (Z.eqb (Book_count_by_author (Book.author_id b) st1) 0) eqn:Hcount;
    [|reflexivity].
  simpl.
  destruct (Author_get (Book.author_id b) st1) as [a|] eqn:Ha; [|reflexivity].
  unfold session_commit, flush, bind. simpl.
  assert (Hnoref : existsb (references (Author.id a)) (books st1) = false).
  { apply Z.eqb_eq in Hcount. unfold Book_count_by_author in Hcount.
    apply find_some in Ha as [_ Ha]. apply value_eqb_Int in Ha.
    rewrite Ha in Hcount.
    assert (Hz : List.length
                   (filter (author_id_is (Sql.Int (Author.id a)))
                           (books st1)) = 0%nat) by lia.
    destruct (existsb (references (Author.id a)) (books st1)) eqn:Hex; auto.
    apply existsb_exists in Hex as (x & Hx & Hr).
    rewrite filter_empty_iff in Hz. apply Hz in Hx.
    unfold references in Hr. simpl in Hx. congruence. }
  rewrite Hnoref. reflexivity.
Qed.

End HomeDelete.

(** What remains for an author once the rows of one book id are gone. *)
Lemma remaining_after_last (st : Store) (B : Book.t) (a : Z) :
  In B (books st) -> references a B = true ->
  List.length (filter (references a) (books st)) = 1%nat ->
  List.length (filter (references a) (books (without_book (Book.id B) st))) = 0%nat.
Proof.
  intros HB Href Hone. simpl.
  pose proof (filter_length_split (references a)
                (fun x => Z.eqb (Book.id x) (Book.id B)) (books st)) as Hsplit.
  assert (Hin : In B (filter (references a)
                        (filter (fun x => Z.eqb (Book.id x) (Book.id B)) (books st)))).
  { apply filter_In. split; [|exact Href].
    apply filter_In. split; [exact HB|apply Z.eqb_refl]. }
  destruct (filter (references a)
              (filter (fun x => Z.eqb (Book.id x) (Book.id B)) (books st)));
    [contradiction|]. simpl in Hsplit. lia.
Qed.

Lemma remaining_after_one_of_many (st : Store) (i a : Z) :
  distinct (map Book.id (books st)) = true ->
  (2 <= List.length (filter (references a) (books st)))%nat ->
  (1 <= List.length (filter (references a) (books (without_book i st))))%nat.
Proof.
  intros Hd Hmany. simpl.
  pose proof (filter_length_split (references a)
                (fun x => Z.eqb (Book.id x) i) (books st)) as Hsplit.
  pose proof (filter_length_le (references a)
                (filter (fun x => Z.eqb (Book.id x) i) (books st))) as Hle.
  pose proof (at_most_one_with_key Book.id (books st) i Hd) as Hone.
  lia.
Qed.

Lemma Author_get_present (st : Store) (A : Author.t) :
  In A (authors st) ->
  exists a, Author_get (Sql.Int (Author.id A)) st = Some a /\
            Author.id a = Author.id A.
Proof.
  intros HA. unfold Author_get.
  destruct (find (fun a => Sql.value_eqb (Sql.Int (Author.id A))
                                         (Sql.Int (Author.id a)))
                 (authors st)) as [a|] eqn:Hf.
  - exists a. split; [reflexivity|].
    apply find_some in Hf as [_ Hf]. simpl in Hf.
    apply Z.eqb_eq in Hf. congruence.
  - apply (find_none _ _ Hf) in HA. simpl in HA.
    rewrite Z.eqb_refl in HA. discriminate.
Qed.

Lemma not_in_without_author (st : Store) (A : Author.t) :
  ~ In A (authors (without_author (Author.id A) st)).
Proof.
  simpl. intros H. apply filter_In in H as [_ H].
  rewrite Z.eqb_refl in H. discriminate.
Qed.

Lemma not_in_without_book (st : Store) (B : Book.t) :
  ~ In B (books (without_book (Book.id B) st)).
Proof.
  simpl. intros H. apply filter_In in H as [_ H].
  rewrite Z.eqb_refl in H. discriminate.
Qed.

(** C1.  Deleting a stored book [B] through the POST branch of [home]
    removes [B] and no other book, and the author [A] that [B] references
    is removed exactly when no remaining book references [A]: when [B] was
    the only book of [A] the author row is deleted, when [A] had two or
    more books the authors table is unchanged. *)
Theorem home_delete_cascades
    (E : Engine) (st : Store) (fl : list flash_t) (req : Request)
    (text : string) (B : Book.t) (A : Author.t) :
  method req = POST ->
  multidict_get "delete_book_id" (form req) = Some text ->
  Py.int text = Some (Book.id B) ->
  distinct (map Book.id (books st)) = true ->
  In B (books st) ->
  In A (authors st) ->
  Book.author_id B = Sql.Int (Author.id A) ->
  exists st' commits,
    serve (home E req) st fl =
      (Ok (redirect "home"), st',
       (fl ++ [("success", "Book successfully deleted!")])%list, commits) /\
    books st' = books (without_book (Book.id B) st) /\
    (forall b, In b (books st') <-> In b (books st) /\ b <> B) /\
    ((forall b, In b (books st') ->
        Book.author_id b <> Sql.Int (Author.id A)) ->
       ~ In A (authors st') /\
       authors st' = authors (without_author (Author.id A) st)) /\
    ((exists b, In b (books st') /\
        Book.author_id b = Sql.Int (Author.id A)) ->
       authors st' = authors st) /\
    (List.length (filter (references (Author.id A)) (books st)) = 1%nat ->
       ~ In A (authors st')) /\
    ((2 <= List.length (filter (references (Author.id A)) (books st)))%nat ->
       authors st' = authors st).
Proof.
  intros Hm Hf Hi Hd HB HA Href.
  assert (Hget : Book_get (Book.id B) st = Some B)
    by (apply (find_by_key Book.id); assumption).
  pose proof (home_post_present E st fl req text _ Hm Hf Hi B Hget) as Hrun.
  cbv zeta in Hrun. rewrite Href in Hrun.
  assert (Hbooks : forall b, In b (books (without_book (Book.id B) st)) <->
                             In b (books st) /\ b <> B).
  { intros b. simpl. rewrite filter_In. split.
    - intros [Hb Hne]. split; [exact Hb|]. intros ->.
      rewrite Z.eqb_refl in Hne. discriminate.
    - intros [Hb Hne]. split; [exact Hb|].
      apply negb_true_iff, Z.eqb_neq. intros Heq. apply Hne.
      now apply (distinct_key_inj Book.id (books st)). }
  assert (HrefB : references (Author.id A) B = true)
    by (apply value_eqb_Int; exact Href).
  unfold Book_count_by_author in Hrun.
  change (author_id_is (Sql.Int (Author.id A)))
    with (references (Author.id A)) in Hrun.
  destruct (Z.eqb_spec
              (Z.of_nat (List.length
                 (filter (references (Author.id A))
                         (books (without_book (Book.id B) st))))) 0)
    as [Hzero|Hsome].
  - (* no book of the author remains *)
    assert (Hnone : List.length
                      (filter (references (Author.id A))
                              (books (without_book (Book.id B) st))) = 0%nat)
      by lia.
    destruct (Author_get_present (without_book (Book.id B) st) A HA)
      as (a & Ha & Hid).
    rewrite Ha, Hid in Hrun.
    do 2 eexists. split; [exact Hrun|].
    split; [reflexivity|]. split; [exact Hbooks|].
    split; [intros _; split; [apply not_in_without_author|reflexivity]|].
    split.
    + intros (b & Hb & Hbref). exfalso.
      rewrite filter_empty_iff in Hnone. apply Hnone in Hb.
      apply value_eqb_Int in Hbref. unfold references in Hb. congruence.
    + split; [intros _; apply not_in_without_author|].
      intros Hmany. exfalso.
      pose proof (remaining_after_one_of_many st (Book.id B) (Author.id A)
                    Hd Hmany). lia.
  - (* the author keeps a book *)
    do 2 eexists. split; [exact Hrun|].
    split; [reflexivity|]. split; [exact Hbooks|].
    assert (Hkeeps : exists b, In b (books (without_book (Book.id B) st)) /\
                               references (Author.id A) b = true).
    { destruct (filter (references (Author.id A))
                       (books (without_book (Book.id B) st))) as [|b l] eqn:Hl.
      - simpl in Hsome. lia.
      - exists b. apply filter_In. rewrite Hl. now left. }
    destruct Hkeeps as (b & Hb & Hbref).
    split.
    + intros Hno. exfalso. apply (Hno b Hb). now apply value_eqb_Int.
    + split; [reflexivity|]. split; [|reflexivity].
      intros Hone. exfalso.
      pose proof (remaining_after_last st B (Author.id A) HB HrefB Hone) as Hz.
      rewrite filter_empty_iff in Hz. apply Hz in Hb. congruence.
Qed.

Lemma home_delete_cascades_witness :
  (exists st',
     serve (home sqlite_default (post_form [("delete_book_id", "1")]))
           library [] =
       (Ok (redirect "home"), st',
        [("success", "Book successfully deleted!")],
        [without_book 1 library; st']) /\
     ~ In herbert (authors st')) /\
  (exists st' commits,
     serve (home sqlite_default (post_form [("delete_book_id", "3")]))
           library [] =
       (Ok (redirect "home"), st',
        [("success", "Book successfully deleted!")], commits) /\
     authors st' = authors library).
Proof.
  split.
  - destruct (home_delete_cascades sqlite_default library []
                (post_form [("delete_book_id", "1")]) "1" dune herbert)
      as (st' & commits & Hrun & _ & _ & _ & _ & Hlast & _);
      try reflexivity; simpl; auto.
    exists st'. split; [|apply Hlast; reflexivity].
    vm_compute in Hrun. injection Hrun as Hst Hcommits.
    rewrite <- Hst. reflexivity.
  - destruct (home_delete_cascades sqlite_default library []
                (post_form [("delete_book_id", "3")]) "3" dispossessed le_guin)
      as (st' & commits & Hrun & _ & _ & _ & _ & _ & Hmany);
      try reflexivity; simpl; auto.
    exists st', commits. split; [exact Hrun|].
    apply Hmany. simpl. lia.
Defined.

(** ** The dedicated delete endpoint *)

Lemma delete_book_absent (E : Engine) (st : Store) (fl : list flash_t) (n : Z) :
  Book_get n st = None ->
  Sql.int64 n = true ->
  serve (delete_book E n) st fl =
  (Ok (redirect "home"), st, (fl ++ [("danger", "Book not found.")])%list, []).
Proof.
  intros Hget Hrange.
  unfold serve, delete_book, Book_query_get, bind_int, query, flush, bind, ret.
  simpl. now rewrite Hget, Hrange.
Qed.

Lemma delete_book_overflow (E : Engine) (st : Store) (fl : list flash_t) (n : Z) :
  Book_get n st = None ->
  Sql.int64 n = false ->
  serve (delete_book E n) st fl = (Raise Py.OverflowError, st, fl, []).
Proof.
  intros Hget Hrange.
  unfold serve, delete_book, Book_query_get, bind_int, query, flush, bind,
    ret, raise.
  simpl. now rewrite Hget, Hrange.
Qed.

(** A stored book: the handler stops at the name [session], before
    anything is registered with the session. *)
Lemma delete_book_present
    (E : Engine) (st : Store) (fl : list flash_t) (B : Book.t) :
  In B (books st) ->
  serve (delete_book E (Book.id B)) st fl =
  (Raise (Py.NameError "session"), st, fl, []).
Proof.
  intros HB.
  unfold serve, delete_book, Book_query_get, query, flush, bind, ret. simpl.
  destruct (Book_get (Book.id B) st) as [b|] eqn:Hget.
  - reflexivity.
  - apply (find_none _ _ Hget) in HB. rewrite Z.eqb_refl in HB. discriminate.
Qed.

(** C2.  On the sample library, a POST to [/book/1/delete] (the book with
    id 1 is stored) ends in [NameError] for the name [session]: no
    response, no flash, and the tables are as before, book 1 included. *)
Theorem delete_book_endpoint_raises :
  serve (delete_book sqlite_default 1) library [] =
    (Raise (Py.NameError "session"), library, [], []) /\
  In dune (books library) /\
  serve (home sqlite_default (post_form [("delete_book_id", "1")])) library [] =
    (Ok (redirect "home"),
     without_author 1 (without_book 1 library),
     [("success", "Book successfully deleted!")],
     [without_book 1 library; without_author 1 (without_book 1 library)]).
Proof.
  split; [vm_compute; reflexivity|].
  split; [now left|vm_compute; reflexivity].
Qed.




(** C4, as stated, fails: deleting the only book of an author on the
    sample library passes through a commit point where the book is gone
    and its author is still stored. *)
Lemma cascade_is_not_atomic :
  ~ cascade_is_atomic sqlite_default library
      (post_form [("delete_book_id", "1")]) dune herbert.
Proof.
  intros Hatomic.
  assert (Hrun :
            serve (home sqlite_default (post_form [("delete_book_id", "1")]))
                  library [] =
            (Ok (redirect "home"), without_author 1 (without_book 1 library),
             [("success", "Book successfully deleted!")],
             [without_book 1 library;
              without_author 1 (without_book 1 library)]))
    by (vm_compute; reflexivity).
  apply (Hatomic _ _ _ _ Hrun (without_book 1 library)).
  - now left.
  - apply (not_in_without_book library dune).
  - now left.
Qed.

(** C4, amended.  When [B] is the only book of its author [A], the POST
    branch of [home] commits twice: the first commit makes durable the
    tables without [B] and with [A] still stored, the second the tables
    without [A] as well; once the handler has returned, both deletions
    are durable. *)
Theorem home_delete_commits_twice
    (E : Engine) (st : Store) (fl : list flash_t) (req : Request)
    (text : string) (B : Book.t) (A : Author.t) :
  method req = POST ->
  multidict_get "delete_book_id" (form req) = Some text ->
  Py.int text = Some (Book.id B) ->
  distinct (map Book.id (books st)) = true ->
  In B (books st) ->
  In A (authors st) ->
  Book.author_id B = Sql.Int (Author.id A) ->
  List.length (filter (references (Author.id A)) (books st)) = 1%nat ->
  let first := without_book (Book.id B) st in
  let second := without_author (Author.id A) first in
  serve (home E req) st fl =
    (Ok (redirect "home"), second,
     (fl ++ [("success", "Book successfully deleted!")])%list,
     [first; second]) /\
  (~ In B (books first) /\ In A (authors first)) /\
  (~ In B (books second) /\ ~ In A (authors second)).
Proof.
  intros Hm Hf Hi Hd HB HA Href Hone first second.
  assert (Hget : Book_get (Book.id B) st = Some B)
    by (apply (find_by_key Book.id); assumption).
  pose proof (home_post_present E st fl req text _ Hm Hf Hi B Hget) as Hrun.
  cbv zeta in Hrun. rewrite Href in Hrun. fold first in Hrun.
  assert (HrefB : references (Author.id A) B = true)
    by (apply value_eqb_Int; exact Href).
  pose proof (remaining_after_last st B (Author.id A) HB HrefB Hone) as Hz.
  fold first in Hz.
  unfold Book_count_by_author in Hrun.
  change (author_id_is (Sql.Int (Author.id A)))
    with (references (Author.id A)) in Hrun.
  rewrite Hz in Hrun. simpl in Hrun.
  destruct (Author_get_present first A HA) as (a & Ha & Hid).
  rewrite Ha, Hid in Hrun. fold second in Hrun.
  split; [exact Hrun|]. split; split.
  - apply not_in_without_book.
  - exact HA.
  - apply (not_in_without_book st B).
  - apply (not_in_without_author first A).
Qed.

Lemma home_delete_commits_twice_witness :
  serve (home sqlite_default (post_form [("delete_book_id", "1")])) library [] =
    (Ok (redirect "home"),
     without_author 1 (without_book 1 library),
     [("success", "Book successfully deleted!")],
     [without_book 1 library; without_author 1 (without_book 1 library)]) /\
  In herbert (authors (without_book 1 library)) /\
  ~ In dune (books (without_book 1 library)).
Proof.
  destruct (home_delete_commits_twice sqlite_default library []
              (post_form [("delete_book_id", "1")]) "1" dune herbert)
    as (Hrun & (Hgone & Hlingers) & _);
    try reflexivity; simpl; auto.
Defined.

(** ** Creating authors and books *)

Section AddAuthor.
Variable E : Engine.
Variables (st : Store) (fl : list flash_t) (req : Request).
Hypothesis Hmethod : method req = POST.

Lemma add_author_rejected :
  Py.truthy_opt (multidict_get "name" (form req)) = false \/
  Py.truthy_opt (multidict_get "birthdate" (form req)) = false ->
  serve (add_author E req) st fl =
  (Ok (redirect "add_author"), st,
   (fl ++ [("message", "Please insert all required dates.");
           ("success", "Author successfully added!")])%list, []).
Proof.
  intros Hbad. unfold serve, add_author, bind, ret, flash. rewrite Hmethod.
  destruct (multidict_get "name" (form req)) as [n|],
           (multidict_get "birthdate" (form req)) as [b|];
    simpl in *; try (now rewrite <- app_assoc).
  destruct Hbad as [Hbad|Hbad]; rewrite Hbad; simpl.
  - now rewrite <- app_assoc.
  - rewrite orb_true_r. simpl. now rewrite <- app_assoc.
Qed.

Lemma add_author_accepted (n b : string) :
  multidict_get "name" (form req) = Some n ->
  multidict_get "birthdate" (form req) = Some b ->
  Py.truthy n = true -> Py.truthy b = true ->
  let row := {| Author.id := next_rowid (map Author.id (authors st));
                Author.name := n;
                Author.birth_date := Some b;
                Author.date_of_death :=
                  multidict_get "date_of_death" (form req) |} in
  let st' := {| authors := authors st ++ [row]; books := books st |} in
  serve (add_author E req) st fl =
  (Ok (redirect "add_author"), st',
   (fl ++ [("message", "Author successfully added!");
           ("success", "Author successfully added!")])%list, [st']).
Proof.
  intros Hn Hb Htn Htb row st'.
  unfold serve, add_author, bind, ret, flash, session_commit, flush, bind.
  rewrite Hmethod, Hn, Hb, Htn, Htb. simpl.
  now rewrite <- app_assoc.
Qed.

End AddAuthor.

(** C8.  A POST to [/add_author] whose [name] or [birthdate] is missing or
    empty flashes the validation message and writes nothing: the tables,
    and so the number of author rows, are as before and nothing is
    committed.  When both are non-empty, one author row is appended with
    the submitted values and success is flashed. *)
Theorem add_author_validation
    (E : Engine) (st : Store) (fl : list flash_t) (req : Request) :
  method req = POST ->
  (Py.truthy_opt (multidict_get "name" (form req)) = false \/
   Py.truthy_opt (multidict_get "birthdate" (form req)) = false ->
   exists fl',
     serve (add_author E req) st fl =
       (Ok (redirect "add_author"), st, fl', []) /\
     In ("message", "Please insert all required dates.") fl') /\
  (forall n b,
     multidict_get "name" (form req) = Some n ->
     multidict_get "birthdate" (form req) = Some b ->
     Py.truthy n = true -> Py.truthy b = true ->
     exists st' row fl',
       serve (add_author E req) st fl =
         (Ok (redirect "add_author"), st', fl', [st']) /\
       authors st' = (authors st ++ [row])%list /\
       books st' = books st /\
       List.length (authors st') = S (List.length (authors st)) /\
       Author.name row = n /\
       Author.birth_date row = Some b /\
       Author.date_of_death row = multidict_get "date_of_death" (form req) /\
       In ("success", "Author successfully added!") fl').
Proof.
  intros Hm. split.
  - intros Hbad. eexists. split.
    + now apply add_author_rejected.
    + apply in_or_app. right. now left.
  - intros n b Hn Hb Htn Htb.
    do 3 eexists. split.
    + now apply (add_author_accepted E st fl req Hm n b).
    + simpl. repeat split.
      * rewrite length_app. simpl. lia.
      * apply in_or_app. right. right. now left.
Qed.

Lemma add_author_validation_witness :
  (exists fl',
     serve (add_author sqlite_default (post_form [("name", "Stanislaw Lem")]))
           library [] =
       (Ok (redirect "add_author"), library, fl', []) /\
     In ("message", "Please insert all required dates.") fl') /\
  (exists st' row fl',
     serve (add_author sqlite_default
              (post_form [("name", "Stanislaw Lem"); ("birthdate", "1921-09-12")]))
           library [] =
       (Ok (redirect "add_author"), st', fl', [st']) /\
     authors st' = [herbert; le_guin; row] /\
     Author.id row = 3 /\
     Author.name row = "Stanislaw Lem").
Proof.
  split.
  - apply (add_author_validation sqlite_default library []
             (post_form [("name", "Stanislaw Lem")]) eq_refl).
    right. reflexivity.
  - destruct (add_author_validation sqlite_default library []
                (post_form [("name", "Stanislaw Lem");
                            ("birthdate", "1921-09-12")]) eq_refl)
      as [_ Hok].
    destruct (Hok "Stanislaw Lem" "1921-09-12" eq_refl eq_refl eq_refl eq_refl)
      as (st' & row & fl' & Hrun & Hauthors & _ & _ & Hname & _).
    exists st', row, fl'. split; [exact Hrun|].
    vm_compute in Hrun. injection Hrun as Hst _ _. subst st'.
    simpl in Hauthors. injection Hauthors as Hrow. subst row.
    repeat split; reflexivity.
Defined.

(** C9.  Every POST to [/add_author] ends by flashing
    ["Author successfully added!"] in category [success], whether or not
    an author was written; a submission that fails validation is left with
    the validation message followed by that success message, and with the
    tables as before. *)
Theorem add_author_always_flashes_success
    (E : Engine) (st : Store) (fl : list flash_t) (req : Request) :
  method req = POST ->
  exists st' earlier commits,
    serve (add_author E req) st fl =
      (Ok (redirect "add_author"), st',
       (fl ++ earlier ++ [("success", "Author successfully added!")])%list,
       commits) /\
    (Py.truthy_opt (multidict_get "name" (form req)) = false \/
     Py.truthy_opt (multidict_get "birthdate" (form req)) = false ->
     st' = st /\ commits = [] /\
     earlier = [("message", "Please insert all required dates.")]).
Proof.
  intros Hm.
  destruct (multidict_get "name" (form req)) as [n|] eqn:Hn;
    [destruct (multidict_get "birthdate" (form req)) as [b|] eqn:Hb;
     [destruct (Py.truthy n) eqn:Htn; [destruct (Py.truthy b) eqn:Htb|]|]|].
  - do 3 eexists. split.
    + rewrite (add_author_accepted E st fl req Hm n b Hn Hb Htn Htb).
      instantiate (2 := [("message", "Author successfully added!")]).
      reflexivity.
    + simpl. rewrite Htn, Htb. intros [H|H]; discriminate.
  - exists st, [("message", "Please insert all required dates.")], [].
    split; [|now intros _].
    apply add_author_rejected; [exact Hm|]. right. rewrite Hb. exact Htb.
  - exists st, [("message", "Please insert all required dates.")], [].
    split; [|now intros _].
    apply add_author_rejected; [exact Hm|]. left. rewrite Hn. exact Htn.
  - exists st, [("message", "Please insert all required dates.")], [].
    split; [|now intros _].
    apply add_author_rejected; [exact Hm|]. right. now rewrite Hb.
  - exists st, [("message", "Please insert all required dates.")], [].
    split; [|now intros _].
    apply add_author_rejected; [exact Hm|]. left. now rewrite Hn.
Qed.

Lemma add_author_always_flashes_success_witness :
  serve (add_author sqlite_default (post_form [("name", "Stanislaw Lem")]))
        library [] =
    (Ok (redirect "add_author"), library,
     [("message", "Please insert all required dates.");
      ("success", "Author successfully added!")], []).
Proof.
  destruct (add_author_always_flashes_success sqlite_default library []
              (post_form [("name", "Stanislaw Lem")]) eq_refl)
    as (st' & earlier & commits & Hrun & Hrej).
  destruct Hrej as (-> & -> & ->); [right; reflexivity|].
  exact Hrun.
Defined.

Section AddBook.
Variable E : Engine.
Variables (st : Store) (fl : list flash_t) (req : Request).
Variables (i t y a : string).
Hypothesis Hmethod : method req = POST.
Hypothesis Hisbn : multidict_get "isbn" (form req) = Some i.
Hypothesis Htitle : multidict_get "title" (form req) = Some t.
Hypothesis Hyear : multidict_get "publication_year" (form req) = Some y.
Hypothesis Hauthor : multidict_get "author_id" (form req) = Some a.
Hypothesis Hfilled :
  Py.truthy i = true /\ Py.truthy t = true /\
  Py.truthy y = true /\ Py.truthy a = true.

(** A complete form: the outcome is that of the INSERT. *)
Lemma add_book_complete :
  serve (add_book E req) st fl =
  match apply_op E st (AddBook i t y a) with
  | Some st' =>
      (Ok (redirect "add_book"), st',
       (fl ++ [("message", "Book successfully added!")])%list, [st'])
  | None => (Raise Py.IntegrityError, st, fl, [])
  end.
Proof.
  destruct Hfilled as (Hi & Ht & Hy & Ha).
  unfold serve, add_book, query, flush, bind, ret.
  cbn [durable txn pending flashes journal apply_ops].
  rewrite Hmethod, Hisbn, Htitle, Hyear, Hauthor, Hi, Ht, Hy, Ha.
  unfold session_register, session_commit, flush, bind, flash.
  cbn [durable txn pending flashes journal apply_ops app negb orb].
  destruct (apply_op E st (AddBook i t y a)); reflexivity.
Qed.

End AddBook.

Lemma insert_refused (E : Engine) (st : Store) (i t y a : string) :
  (exists b, In b (books st) /\ Book.isbn b = i) \/
  (foreign_keys E = true /\
   forall au, In au (authors st) ->
     integer_affinity E a <> Sql.Int (Author.id au)) ->
  apply_op E st (AddBook i t y a) = None.
Proof.
  intros Hviol. simpl.
  destruct (existsb (fun b => String.eqb (Book.isbn b) i) (books st)) eqn:Hdup;
    [reflexivity|].
  destruct Hviol as [(b & Hb & Hi)|[Hfk Hmissing]].
  - exfalso.
    assert (existsb (fun b => String.eqb (Book.isbn b) i) (books st) = true);
      [|congruence].
    apply existsb_exists. exists b. split; [exact Hb|].
    now apply String.eqb_eq.
  - destruct (integer_affinity E a) eqn:Haff; try reflexivity; rewrite Hfk;
      match goal with
      | |- (if true && negb (existsb ?f ?l) then _ else _) = _ =>
          assert (Hnone : existsb f l = false)
      end;
      try (rewrite Hnone; reflexivity);
      try (destruct (existsb _ (authors st)) eqn:Hex; [|reflexivity];
           apply existsb_exists in Hex as (au & Hau & Heq);
           apply value_eqb_Int in Heq;
           exfalso; exact (Hmissing au Hau Heq)).
Qed.

(** C3, as stated, fails: on the sample library a second book with the
    isbn of a stored one is refused by the insert, and the handler does
    not answer with a message; the [IntegrityError] leaves the handler. *)
Lemma duplicate_isbn_is_not_handled :
  ~ violation_is_handled sqlite_default library
      (post_form [("isbn", "111"); ("title", "Children of Dune");
                  ("publication_year", "1976"); ("author_id", "1")]).
Proof.
  intros (resp & st' & fl' & commits & Hrun & _).
  vm_compute in Hrun. discriminate.
Qed.

(** C3, amended.  A POST to [/add_book] with every field filled in, whose
    isbn is that of a stored book, or whose author_id names no stored
    author while the engine enforces foreign keys, is refused by the
    insert: the tables are as before, nothing is committed, no message is
    flashed, and [IntegrityError] propagates out of the handler. *)
Theorem add_book_violation_raises
    (E : Engine) (st : Store) (fl : list flash_t) (req : Request)
    (i t y a : string) :
  method req = POST ->
  multidict_get "isbn" (form req) = Some i ->
  multidict_get "title" (form req) = Some t ->
  multidict_get "publication_year" (form req) = Some y ->
  multidict_get "author_id" (form req) = Some a ->
  Py.truthy i = true /\ Py.truthy t = true /\
  Py.truthy y = true /\ Py.truthy a = true ->
  (exists b, In b (books st) /\ Book.isbn b = i) \/
  (foreign_keys E = true /\
   forall au, In au (authors st) ->
     integer_affinity E a <> Sql.Int (Author.id au)) ->
  serve (add_book E req) st fl = (Raise Py.IntegrityError, st, fl, []).
Proof.
  intros Hm Hi Ht Hy Ha Hfilled Hviol.
  rewrite (add_book_complete E st fl req i t y a Hm Hi Ht Hy Ha Hfilled).
  now rewrite (insert_refused E st i t y a Hviol).
Qed.

Lemma add_book_violation_raises_witness :
  serve (add_book sqlite_default
           (post_form [("isbn", "111"); ("title", "Children of Dune");
                       ("publication_year", "1976"); ("author_id", "1")]))
        library [] =
    (Raise Py.IntegrityError, library, [], []) /\
  serve (add_book sqlite_foreign_keys_on
           (post_form [("isbn", "444"); ("title", "Solaris");
                       ("publication_year", "1961"); ("author_id", "7")]))
        library [] =
    (Raise Py.IntegrityError, library, [], []).
Proof.
  split.
  - apply (add_book_violation_raises sqlite_default library [] _
             "111" "Children of Dune" "1976" "1");
      try reflexivity; [repeat split|].
    left. exists dune. split; [now left|reflexivity].
  - apply (add_book_violation_raises sqlite_foreign_keys_on library [] _
             "444" "Solaris" "1961" "7");
      try reflexivity; [repeat split|].
    right. split; [reflexivity|].
    intros au [<-|[<-|[]]]; discriminate.
Defined.

(** ** Characters *)


Lemma append_assoc (a b c : string) : (a ++ b) ++ c = a ++ (b ++ c).
Proof. induction a as [|x a IH]; simpl; congruence. Qed.

Lemma unchars_absorb (w : string) (l : list string) :
  Utf8.unchars (Utf8.absorb w l) = w ++ Utf8.unchars l.
Proof.
  revert w. induction l as [|d l IH]; intros w; [reflexivity|].
  destruct d as [|c [|c' d]]; try reflexivity.
  simpl. destruct (Utf8.continuation c); [|reflexivity].
  rewrite IH. now rewrite append_assoc.
Qed.

(** Splitting a text into characters loses nothing. *)
Lemma unchars_chars (s : string) : Utf8.unchars (Utf8.chars s) = s.
Proof.
  induction s as [|c s IH]; simpl; [reflexivity|].
  destruct (Utf8.lead c); [rewrite unchars_absorb|]; simpl; now rewrite IH.
Qed.


Lemma lead_not_continuation (c : ascii) :
  Utf8.lead c = true -> Utf8.continuation c = false.
Proof.
  unfold Utf8.lead, Utf8.continuation. intros H.
  apply N.leb_le in H. apply andb_false_iff. right. apply N.ltb_ge. exact H.
Qed.

Lemma string_length_append (a b : string) :
  String.length (a ++ b) = (String.length a + String.length b)%nat.
Proof. induction a as [|c a IH]; simpl; congruence. Qed.

Lemma absorb_long (w : string) (l : list string) :
  (2 <= String.length w)%nat -> closed_head (Utf8.absorb w l).
Proof.
  revert w. induction l as [|d l IH]; intros w Hw.
  - destruct w as [|x [|y w]]; simpl in *; try lia; exact I.
  - assert (Hhere : closed_head (w :: d :: l))
      by (destruct w as [|x [|y w]]; simpl in *; try lia; exact I).
    destruct d as [|x [|y d]]; try exact Hhere.
    simpl. destruct (Utf8.continuation x); [|exact Hhere].
    apply IH. rewrite string_length_append. simpl. lia.
Qed.

Lemma absorb_head (c : ascii) (l : list string) :
  Utf8.lead c = true -> closed_head (Utf8.absorb (String c EmptyString) l).
Proof.
  intros Hc. apply lead_not_continuation in Hc.
  destruct l as [|d l]; simpl; [exact Hc|].
  destruct d as [|x [|y d]]; simpl; try exact Hc.
  destruct (Utf8.continuation x); [|exact Hc].
  apply absorb_long. simpl. lia.
Qed.

Lemma chars_head (c : ascii) (s : string) :
  Utf8.continuation c = false -> closed_head (Utf8.chars (String c s)).
Proof.
  intros Hc. simpl. destruct (Utf8.lead c) eqn:Hl.
  - now apply absorb_head.
  - simpl. exact Hc.
Qed.


(** ** White space at the ends *)





Lemma strip_all_space (s : string) :
  all_space s = true -> Py.strip s = EmptyString.
Proof.
  unfold all_space, Py.strip. intros H.
  assert (Hl : Py.lstrip (Utf8.chars s) = []).
  { induction (Utf8.chars s) as [|c l IH]; simpl in *; [reflexivity|].
    apply andb_true_iff in H as [Hc Hl]. rewrite Hc. now apply IH. }
  now rewrite Hl.
Qed.

Lemma lstrip_none (l : list string) :
  Forall (fun c => Py.isspace c = false) l -> Py.lstrip l = l.
Proof.
  intros H. destruct H as [|c l Hc _]; simpl; [reflexivity|]. now rewrite Hc.
Qed.

Lemma strip_none (s : string) :
  Forall (fun c => Py.isspace c = false) (Utf8.chars s) -> Py.strip s = s.
Proof.
  intros H. unfold Py.strip, Py.rstrip.
  rewrite (lstrip_none _ H).
  rewrite lstrip_none by (apply Forall_rev; exact H).
  rewrite rev_involutive. apply unchars_chars.
Qed.

(** ** LIKE patterns *)

Lemma like_star_spec (k : list string -> bool) (t : list string) :
  Sql.like_star k t = true <-> exists a b, t = (a ++ b)%list /\ k b = true.
Proof.
  induction t as [|c t IH]; simpl.
  - rewrite orb_false_r. split.
    + intros Hk. now exists [], [].
    + intros (a & b & Heq & Hk). symmetry in Heq.
      apply app_eq_nil in Heq as [_ ->]. exact Hk.
  - rewrite orb_true_iff, IH. split.
    + intros [Hk|(a & b & Heq & Hk)].
      * now exists [], (c :: t).
      * exists (c :: a), b. simpl. now rewrite Heq.
    + intros (a & b & Heq & Hk). destruct a as [|d a]; simpl in Heq.
      * left. now subst b.
      * right. injection Heq as _ Heq. now exists a, b.
Qed.

(** The matcher decides the declarative reading of a pattern. *)
Lemma like_chars_spec (p t : list string) :
  Sql.like_chars p t = true <-> like_pattern p t.
Proof.
  revert t. induction p as [|c p IH]; intros t; simpl.
  - destruct t; split; try discriminate.
    + intros _. constructor.
    + reflexivity.
    + intros H. inversion H.
  - destruct (String.eqb_spec c "%") as [->|Hpct].
    { rewrite like_star_spec. split.
      - intros (a & b & -> & Hk). apply like_any. now apply IH.
      - intros H. inversion H as [|p0 t0 u Hu| |]; subst.
        + exists t0, u. split; [reflexivity|now apply IH].
        + congruence. }
    destruct t as [|d t].
    { split; [discriminate|]. intros H. inversion H; subst; congruence. }
    destruct (String.eqb_spec c "_") as [->|Hund].
    { rewrite IH. split.
      - intros H. now apply like_one.
      - intros H. inversion H; subst; try congruence. }
    rewrite andb_true_iff, IH. split.
    + intros [Hcd Hp]. apply String.eqb_eq in Hcd. subst d.
      now apply like_same.
    + intros H. inversion H; subst; try congruence.
      split; [apply String.eqb_refl|assumption].
Qed.

Lemma ilike_spec (column pattern : string) :
  Sql.ilike column pattern = true <-> like_ci pattern column.
Proof. unfold Sql.ilike, Sql.like, like_ci. apply like_chars_spec. Qed.

Lemma matches_like_ci (q : string) (r : Row) :
  matches q r = true <->
  like_ci ("%" ++ q ++ "%") (row_title r) \/
  like_ci ("%" ++ q ++ "%") (row_author r).
Proof.
  unfold matches, row_title, row_author.
  now rewrite orb_true_iff, !ilike_spec.
Qed.






Lemma lower_append (a b : string) :
  Sql.lower (a ++ b) = Sql.lower a ++ Sql.lower b.
Proof. induction a as [|c a IH]; simpl; congruence. Qed.






(** ** The join *)

Lemma join_In (st : Store) (b : Book.t) (a : Author.t) :
  In (b, a) (join st) <->
  In b (books st) /\ In a (authors st) /\
  Book.author_id b = Sql.Int (Author.id a).
Proof.
  unfold join. rewrite in_flat_map. split.
  - intros (b' & Hb' & Hin). apply in_map_iff in Hin as (a' & Heq & Ha').
    injection Heq as -> ->. apply filter_In in Ha' as [Ha' Href].
    apply value_eqb_Int in Href. auto.
  - intros (Hb & Ha & Href). exists b. split; [exact Hb|].
    apply in_map. apply filter_In. split; [exact Ha|].
    now apply value_eqb_Int.
Qed.


Lemma home_books_query_perm (st : Store) (q sb d : string) :
  Permutation (home_books_query q sb d st)
              (if Py.truthy q then filter (matches q) (join st) else join st).
Proof.
  unfold home_books_query.
  destruct (String.eqb sb "author"); apply order_by_perm.
Qed.





(** ** Order and content of the listings *)

(** What [home] lists is what the search selects among the joined rows. *)
Lemma home_rows_selected (st : Store) (S sb d : string) :
  exists keep,
    (forall r, keep r = true <-> selected S r) /\
    Permutation (home_books_query S sb d st) (filter keep (join st)).
Proof.
  exists (fun r => negb (Py.truthy S) || matches S r). split.
  - intros r. unfold selected. rewrite orb_true_iff, matches_like_ci.
    destruct S; simpl; intuition congruence.
  - rewrite home_books_query_perm.
    destruct (Py.truthy S); simpl; [reflexivity|].
    rewrite forallb_filter_id; [reflexivity|].
    apply forallb_forall. reflexivity.
Qed.

(** C6.  Both listing handlers order the rows they list by the author's
    name when [sort_by] is ["author"] and by the book's title when it is
    ["title"] or any unrecognised value; the order is ascending for
    direction ["asc"] (the default when the parameter is absent) and
    descending for ["desc"].  In particular an unrecognised [sort_by] with
    no direction given lists by title, ascending.  What is ordered is, for
    [home], the joined rows that the search selects, and for
    [library_home] all joined rows, each as often as the join holds
    it. *)
Theorem listing_sort_order
    (E : Engine) (st : Store) (fl : list flash_t) (req : Request)
    (key : Row -> string) :
  method req = GET ->
  selects (get_default (args req) "sort_by" "title") key ->
  exists rows_home rows_library q keep,
    serve (home E req) st fl = (Ok (render_home rows_home q), st, fl, []) /\
    serve (library_home E req) st fl =
      (Ok (render_home rows_library None), st, fl, []) /\
    (forall r, keep r = true <->
       selected (Py.strip (get_default (args req) "search" EmptyString)) r) /\
    Permutation rows_home (filter keep (join st)) /\
    Permutation rows_library (join st) /\
    (get_default (args req) "direction" "asc" = "asc" ->
       ascending_by key rows_home /\ ascending_by key rows_library) /\
    (get_default (args req) "direction" "asc" = "desc" ->
       descending_by key rows_home /\ descending_by key rows_library) /\
    (multidict_get "direction" (args req) = None ->
       ascending_by key rows_home /\ ascending_by key rows_library).
Proof.
  intros Hm Hsel.
  set (S := Py.strip (get_default (args req) "search" EmptyString)).
  set (d := get_default (args req) "direction" "asc").
  destruct (home_books_query_order st S _ d _ Hsel) as (c & Hc & Hh).
  destruct (library_books_query_order st _ d _ Hsel) as (c' & Hc' & Hl).
  destruct (home_rows_selected st S
              (get_default (args req) "sort_by" "title") d)
    as (keep & Hkeep & Hperm).
  exists (home_books_query S (get_default (args req) "sort_by" "title") d st),
         (library_books_query (get_default (args req) "sort_by" "title") d st),
         (Some S), keep.
  split; [apply home_get; exact Hm|].
  split; [apply library_get|].
  split; [exact Hkeep|]. split; [exact Hperm|].
  split; [apply order_by_perm|].
  rewrite Hh, Hl.
  assert (Hasc : d = "asc" ->
                 ascending_by key
                   (order_by (if String.eqb d "asc" then asc c else desc c)
                      (if Py.truthy S then filter (matches S) (join st)
                       else join st)) /\
                 ascending_by key
                   (order_by (if String.eqb d "desc" then desc c' else asc c')
                             (join st))).
  { intros Hd. rewrite Hd. simpl. split.
    - rewrite Hc. apply order_by_asc.
    - rewrite Hc'. apply order_by_asc. }
  split; [exact Hasc|]. split.
  - intros Hd. rewrite Hd. simpl. split.
    + rewrite Hc. apply order_by_desc.
    + rewrite Hc'. apply order_by_desc.
  - intros Hnone. apply Hasc. unfold d, get_default. now rewrite Hnone.
Qed.

Lemma listing_sort_order_witness :
  exists rows_home rows_library,
    serve (home sqlite_default
             (get_args [("sort_by", "publisher"); ("direction", "desc")]))
          library [] =
      (Ok (render_home rows_home (Some EmptyString)), library, [], []) /\
    serve (library_home sqlite_default
             (get_args [("sort_by", "publisher"); ("direction", "desc")]))
          library [] =
      (Ok (render_home rows_library None), library, [], []) /\
    Permutation rows_library (join library) /\
    descending_by row_title rows_home /\
    descending_by row_title rows_library.
Proof.
  destruct (listing_sort_order sqlite_default library []
              (get_args [("sort_by", "publisher"); ("direction", "desc")])
              row_title)
    as (rh & rl & q & keep & Hh & Hl & _ & _ & Hperm & _ & Hdesc & _).
  - reflexivity.
  - apply selects_fallback; discriminate.
  - exists rh, rl. destruct (Hdesc eq_refl) as [H1 H2].
    vm_compute in Hh. injection Hh as Hh Hq. subst q.
    split; [rewrite <- Hh; reflexivity|].
    split; [exact Hl|]. split; [exact Hperm|]. now split.
Defined.

(** C10, as stated, fails: for the direction ["up"] and the search term
    ["Dune"] on the sample library, [home] lists one row and
    [library_home] three, so the two listings do not hold the same
    rows. *)
Lemma fallbacks_do_not_list_same_rows :
  ~ fallbacks_list_same_rows sqlite_default library
      {| method := GET;
         args := [("direction", "up"); ("search", "Dune")];
         form := [] |}.
Proof.
  intros Hsame.
  assert (Hh : serve (home sqlite_default
                        {| method := GET;
                           args := [("direction", "up"); ("search", "Dune")];
                           form := [] |}) library [] =
               (Ok (render_home [(dune, herbert)] (Some "Dune")),
                library, [], []))
    by (vm_compute; reflexivity).
  assert (Hl : serve (library_home sqlite_default
                        {| method := GET;
                           args := [("direction", "up"); ("search", "Dune")];
                           form := [] |}) library [] =
               (Ok (render_home [(earthsea, le_guin); (dune, herbert);
                                 (dispossessed, le_guin)] None),
                library, [], []))
    by (vm_compute; reflexivity).
  specialize (Hsame _ _ _ _ Hh Hl).
  apply Permutation_length in Hsame. discriminate.
Qed.

(** C10, amended.  The two listing endpoints read an unrecognised
    direction in opposite ways: [home] lists in descending order for every
    direction other than ["asc"], [library_home] in ascending order for
    every direction other than ["desc"].  [home] lists the joined rows
    that the search selects, [library_home] all joined rows; so for a
    direction that is neither ["asc"] nor ["desc"], on a request without
    search term, the two listings hold the same rows, one in descending
    and the other in ascending order of the key. *)
Theorem direction_fallbacks_are_opposite
    (E : Engine) (st : Store) (fl : list flash_t) (req : Request)
    (key : Row -> string) :
  method req = GET ->
  selects (get_default (args req) "sort_by" "title") key ->
  exists rows_home rows_library q keep,
    serve (home E req) st fl = (Ok (render_home rows_home q), st, fl, []) /\
    serve (library_home E req) st fl =
      (Ok (render_home rows_library None), st, fl, []) /\
    (forall r, keep r = true <->
       selected (Py.strip (get_default (args req) "search" EmptyString)) r) /\
    Permutation rows_home (filter keep (join st)) /\
    Permutation rows_library (join st) /\
    (get_default (args req) "direction" "asc" <> "asc" ->
       descending_by key rows_home) /\
    (get_default (args req) "direction" "asc" <> "desc" ->
       ascending_by key rows_library) /\
    (get_default (args req) "direction" "asc" <> "asc" ->
     get_default (args req) "direction" "asc" <> "desc" ->
     Py.strip (get_default (args req) "search" EmptyString) = EmptyString ->
       Permutation rows_home rows_library /\
       descending_by key rows_home /\
       ascending_by key rows_library).
Proof.
  intros Hm Hsel.
  set (S := Py.strip (get_default (args req) "search" EmptyString)).
  set (d := get_default (args req) "direction" "asc").
  destruct (home_books_query_order st S _ d _ Hsel) as (c & Hc & Hh).
  destruct (library_books_query_order st _ d _ Hsel) as (c' & Hc' & Hl).
  destruct (home_rows_selected st S
              (get_default (args req) "sort_by" "title") d)
    as (keep & Hkeep & Hperm).
  exists (home_books_query S (get_default (args req) "sort_by" "title") d st),
         (library_books_query (get_default (args req) "sort_by" "title") d st),
         (Some S), keep.
  split; [apply home_get; exact Hm|].
  split; [apply library_get|].
  split; [exact Hkeep|]. split; [exact Hperm|].
  split; [apply order_by_perm|].
  assert (Hdesc : d <> "asc" ->
            descending_by key
              (home_books_query S (get_default (args req) "sort_by" "title")
                                d st)).
  { intros Hd. apply String.eqb_neq in Hd.
    rewrite Hh, Hd, Hc. apply order_by_desc. }
  assert (Hasc : d <> "desc" ->
            ascending_by key
              (library_books_query (get_default (args req) "sort_by" "title")
                                   d st)).
  { intros Hd. apply String.eqb_neq in Hd.
    rewrite Hl, Hd, Hc'. apply order_by_asc. }
  split; [exact Hdesc|]. split; [exact Hasc|].
  intros Ha Hd Hs. split; [|split; auto].
  rewrite Hh, Hl, Hs. simpl.
  rewrite !order_by_perm. reflexivity.
Qed.

Lemma direction_fallbacks_are_opposite_witness :
  exists rows_home rows_library,
    serve (home sqlite_default (get_args [("direction", "up")])) library [] =
      (Ok (render_home rows_home (Some EmptyString)), library, [], []) /\
    serve (library_home sqlite_default (get_args [("direction", "up")]))
          library [] =
      (Ok (render_home rows_library None), library, [], []) /\
    Permutation rows_home rows_library /\
    descending_by row_title rows_home /\
    ascending_by row_title rows_library.
Proof.
  destruct (direction_fallbacks_are_opposite sqlite_default library []
              (get_args [("direction", "up")]) row_title)
    as (rh & rl & q & keep & Hh & Hl & _ & _ & _ & _ & _ & Hboth).
  - reflexivity.
  - apply selects_title.
  - exists rh, rl.
    vm_compute in Hh. injection Hh as Hh Hq. subst q.
    split; [rewrite <- Hh; reflexivity|].
    split; [exact Hl|].
    apply Hboth; [discriminate|discriminate|reflexivity].
Defined.

(** * Further properties of the code *)

(** ** [strip], [int] and [str] *)

Lemma digit_byte (d : ascii) :
  Py.isdigit d = true ->
  Utf8.lead d = false /\ Py.int_space (String d EmptyString) = false.
Proof.
  destruct d as [[] [] [] [] [] [] [] []]; intros H; try discriminate H;
    split; vm_compute; reflexivity.
Qed.

Lemma chars_digits (s : string) :
  all_digits s = true ->
  Forall (fun c => Py.int_space c = false) (Utf8.chars s).
Proof.
  induction s as [|d s IH]; simpl; [constructor|].
  intros H. apply andb_true_iff in H as [Hd Hs].
  destruct (digit_byte d Hd) as [Hlead Hspace]. rewrite Hlead.
  constructor; [exact Hspace|now apply IH].
Qed.

Lemma int_lstrip_none (l : list string) :
  Forall (fun c => Py.int_space c = false) l -> Py.int_lstrip l = l.
Proof.
  intros H. destruct H as [|c l Hc _]; simpl; [reflexivity|]. now rewrite Hc.
Qed.

Lemma int_strip_none (s : string) :
  Forall (fun c => Py.int_space c = false) (Utf8.chars s) ->
  Py.int_strip s = s.
Proof.
  intros H. unfold Py.int_strip.
  rewrite (int_lstrip_none _ H).
  rewrite int_lstrip_none by (apply Forall_rev; exact H).
  rewrite rev_involutive. apply unchars_chars.
Qed.

Lemma strip_digits (s : string) : all_digits s = true -> Py.int_strip s = s.
Proof. intros H. apply int_strip_none. now apply chars_digits. Qed.

Lemma strip_minus_digits (s : string) :
  all_digits s = true -> Py.int_strip (String "-" s) = String "-" s.
Proof.
  intros H. apply int_strip_none.
  change (Utf8.chars (String "-" s)) with ("-" :: Utf8.chars s).
  constructor; [vm_compute; reflexivity|now apply chars_digits].
Qed.

Lemma string_of_uint_digits (d : Decimal.uint) :
  all_digits (NilEmpty.string_of_uint d) = true.
Proof. induction d; simpl; auto. Qed.

Lemma digits_of_uint_acc (d : Decimal.uint) (acc : positive) :
  Py.digits (NilEmpty.string_of_uint d) (Z.pos acc) true =
  Some (Z.pos (Pos.of_uint_acc d acc)).
Proof.
  revert acc. induction d; intros acc;
    [reflexivity|
     cbn [NilEmpty.string_of_uint Py.digits Pos.of_uint_acc];
     match goal with
     | |- (if Py.isdigit ?c then _ else _) = _ =>
         change (Py.isdigit c) with true; cbv iota
     end;
     rewrite <- IHd; f_equal;
     match goal with
     | |- 10 * _ + Py.digit_value ?c = _ =>
         let v := eval vm_compute in (Py.digit_value c) in
         change (Py.digit_value c) with v
     end; lia ..].
Qed.

Lemma digits_of_uint (d : Decimal.uint) (after_digit : bool) :
  d <> Decimal.Nil \/ after_digit = true ->
  Py.digits (NilEmpty.string_of_uint d) 0 after_digit =
  Some (Z.of_N (Pos.of_uint d)).
Proof.
  revert after_digit. induction d; intros after_digit Hd.
  - destruct Hd as [Hd| ->]; [congruence|reflexivity].
  - cbn [NilEmpty.string_of_uint Py.digits Pos.of_uint].
    change (Py.isdigit "0") with true. cbv iota.
    change (10 * 0 + Py.digit_value "0") with 0.
    apply IHd. now right.
  - apply (digits_of_uint_acc d 1).
  - apply (digits_of_uint_acc d 2).
  - apply (digits_of_uint_acc d 3).
  - apply (digits_of_uint_acc d 4).
  - apply (digits_of_uint_acc d 5).
  - apply (digits_of_uint_acc d 6).
  - apply (digits_of_uint_acc d 7).
  - apply (digits_of_uint_acc d 8).
  - apply (digits_of_uint_acc d 9).
Qed.

Lemma int_of_digits (s : string) :
  all_digits s = true -> Py.int s = Py.digits s 0 false.
Proof.
  intros H. unfold Py.int. rewrite (strip_digits s H).
  destruct s as [|c s]; [reflexivity|].
  simpl in H. apply andb_true_iff in H as [Hc _].
  destruct c as [[] [] [] [] [] [] [] []]; try reflexivity; discriminate.
Qed.

Lemma int_of_minus_digits (s : string) :
  all_digits s = true ->
  Py.int (String "-" s) = option_map Z.opp (Py.digits s 0 false).
Proof.
  intros H. unfold Py.int. now rewrite (strip_minus_digits s H).
Qed.

Lemma string_of_pos (p : positive) :
  NilZero.string_of_uint (Pos.to_uint p) =
  NilEmpty.string_of_uint (Pos.to_uint p).
Proof.
  pose proof (Unsigned.to_uint_nonnil p) as Hnil.
  now destruct (Pos.to_uint p).
Qed.

(** X1.  Reading back with [int] the text that [str] prints for an
    integer gives that integer: [int(str(n)) == n]. *)
Theorem int_str_roundtrip (n : Z) : Py.int (Format.str_int n) = Some n.
Proof.
  unfold Format.str_int. destruct n as [|p|p].
  - reflexivity.
  - simpl. rewrite string_of_pos.
    rewrite int_of_digits by apply string_of_uint_digits.
    rewrite digits_of_uint by (left; apply Unsigned.to_uint_nonnil).
    pose proof (DecimalZ.of_to (Z.pos p)) as Hz. simpl in Hz.
    unfold Z.of_uint in Hz. now rewrite Hz.
  - simpl. rewrite string_of_pos.
    rewrite int_of_minus_digits by apply string_of_uint_digits.
    rewrite digits_of_uint by (left; apply Unsigned.to_uint_nonnil).
    pose proof (DecimalZ.of_to (Z.neg p)) as Hz. simpl in Hz.
    unfold Z.of_uint in Hz. simpl. f_equal.
    destruct (Pos.of_uint (Pos.to_uint p)); simpl in *; congruence.
Qed.

(** ** The POST branch of [home], branch by branch *)

Section HomePost.
Variable E : Engine.
Variables (st : Store) (fl : list flash_t) (req : Request).
Hypothesis Hmethod : method req = POST.

Lemma home_post_no_id :
  Py.truthy_opt (multidict_get "delete_book_id" (form req)) = false ->
  serve (home E req) st fl = (Ok (redirect "home"), st, fl, []).
Proof.
  intros Hnone.
  unfold serve, home, query, flush, bind, ret. simpl. rewrite Hmethod.
  destruct (multidict_get "delete_book_id" (form req)) as [text|];
    [|reflexivity].
  simpl in Hnone. now rewrite Hnone.
Qed.

Lemma home_post_invalid (text : string) :
  multidict_get "delete_book_id" (form req) = Some text ->
  Py.truthy text = true ->
  Py.int text = None ->
  serve (home E req) st fl =
  (Ok (redirect "home"), st, (fl ++ [("error", "Invalid book ID!")])%list, []).
Proof.
  intros Hform Htruthy Hint.
  unfold serve, home, query, flush, bind, ret, try_except_ValueError, raise.
  simpl. now rewrite Hmethod, Hform, Htruthy, Hint.
Qed.

(** Every way a POST to [/] can end. *)
Lemma home_post_cases :
  serve (home E req) st fl = (Ok (redirect "home"), st, fl, []) \/
  serve (home E req) st fl =
    (Ok (redirect "home"), st,
     (fl ++ [("error", "Invalid book ID!")])%list, []) \/
  serve (home E req) st fl =
    (Ok (redirect "home"), st,
     (fl ++ [("error", "Book ID not found!")])%list, []) \/
  (serve (home E req) st fl = (Raise Py.OverflowError, st, fl, []) /\
   exists text n,
     multidict_get "delete_book_id" (form req) = Some text /\
     Py.int text = Some n /\ Sql.int64 n = false /\
     forall b, In b (books st) -> Book.id b <> n) \/
  exists b, In b (books st) /\
    (serve (home E req) st fl =
       (Ok (redirect "home"), without_book (Book.id b) st,
        (fl ++ [("success", "Book successfully deleted!")])%list,
        [without_book (Book.id b) st]) \/
     exists a, In a (authors st) /\
       Book.author_id b = Sql.Int (Author.id a) /\
       (forall x, In x (books (without_book (Book.id b) st)) ->
                  references (Author.id a) x = false) /\
       serve (home E req) st fl =
         (Ok (redirect "home"),
          without_author (Author.id a) (without_book (Book.id b) st),
          (fl ++ [("success", "Book successfully deleted!")])%list,
          [without_book (Book.id b) st;
           without_author (Author.id a) (without_book (Book.id b) st)])).
Proof.
  destruct (Py.truthy_opt (multidict_get "delete_book_id" (form req)))
    eqn:Hsome; [|left; now apply home_post_no_id].
  destruct (multidict_get "delete_book_id" (form req)) as [text|] eqn:Hform;
    [|discriminate]. simpl in Hsome.
  destruct (Py.int text) as [n|] eqn:Hint;
    [|right; left; now apply home_post_invalid with text].
  destruct (Book_get n st) as [b|] eqn:Hget;
    [|destruct (Sql.int64 n) eqn:Hrange;
      [right; right; left; now apply home_post_absent with text n
      |right; right; right; left;
       split; [now apply home_post_overflow with text n|];
       exists text, n; repeat split; auto;
       intros b Hb Heq;
       apply (find_none _ _ Hget) in Hb; apply Z.eqb_neq in Hb; congruence]].
  right. right. right. right. exists b.
  assert (Hb : In b (books st)) by (apply find_some in Hget; tauto).
  split; [exact Hb|].
  rewrite (home_post_present E st fl req text n Hmethod Hform Hint b Hget).
  destruct (Z.eqb_spec
              (Book_count_by_author (Book.author_id b)
                 (without_book (Book.id b) st)) 0) as [Hzero|_];
    [|now left].
  destruct (Author_get (Book.author_id b) (without_book (Book.id b) st))
    as [a|] eqn:Ha; [|now left].
  right. exists a.
  apply find_some in Ha as [Hin Href]. apply value_eqb_Int in Href.
  split; [exact Hin|]. split; [exact Href|]. split; [|reflexivity].
  unfold Book_count_by_author in Hzero. rewrite Href in Hzero.
  change (author_id_is (Sql.Int (Author.id a)))
    with (references (Author.id a)) in Hzero.
  apply filter_empty_iff. lia.
Qed.

End HomePost.

(** ** What filtering rows keeps *)


Lemma distinct_filter {A : Type} (key : A -> Z) (f : A -> bool) (l : list A) :
  distinct (map key l) = true -> distinct (map key (filter f l)) = true.
Proof.
  induction l as [|x l IH]; simpl; [reflexivity|].
  intros H. apply andb_true_iff in H as [Hx Hl].
  destruct (f x); simpl; [|now apply IH].
  rewrite (IH Hl), andb_true_r.
  apply negb_true_iff in Hx. apply negb_true_iff.
  destruct (existsb (Z.eqb (key x)) (map key (filter f l))) eqn:Hex;
    [|reflexivity].
  apply existsb_exists in Hex as (k & Hk & Heq).
  apply in_map_iff in Hk as (y & <- & Hy). apply filter_In in Hy as [Hy _].
  assert (existsb (Z.eqb (key x)) (map key l) = true); [|congruence].
  apply existsb_exists. exists (key y). split; [now apply in_map|exact Heq].
Qed.

Lemma NoDup_map_filter {A B : Type} (g : A -> B) (f : A -> bool) (l : list A) :
  NoDup (map g l) -> NoDup (map g (filter f l)).
Proof.
  induction l as [|x l IH]; simpl; [constructor|].
  intros H. inversion H as [|? ? Hx Hl]; subst.
  destruct (f x); simpl; [|now apply IH].
  constructor; [|now apply IH].
  intros Hin. apply Hx. apply in_map_iff in Hin as (y & Hy & Hin).
  apply filter_In in Hin as [Hin _]. rewrite <- Hy. now apply in_map.
Qed.

Lemma well_formed_without_book (i : Z) (st : Store) :
  well_formed st -> well_formed (without_book i st).
Proof.
  intros (Ha & Hb & Hi). repeat split; simpl.
  - exact Ha.
  - now apply distinct_filter.
  - now apply NoDup_map_filter.
Qed.

Lemma well_formed_without_author (i : Z) (st : Store) :
  well_formed st -> well_formed (without_author i st).
Proof.
  intros (Ha & Hb & Hi). repeat split; simpl; auto.
  now apply distinct_filter.
Qed.

Lemma referential_without_book (i : Z) (st : Store) :
  referential st -> referential (without_book i st).
Proof.
  intros Href b Hb. simpl in Hb. apply filter_In in Hb as [Hb _].
  exact (Href b Hb).
Qed.

Lemma referential_without_author (i : Z) (st : Store) :
  referential st ->
  (forall x, In x (books st) -> references i x = false) ->
  referential (without_author i st).
Proof.
  intros Href Hnone b Hb. simpl in Hb.
  destruct (Href b Hb) as (a & Ha & Hba).
  exists a. split; [|exact Hba]. simpl. apply filter_In.
  split; [exact Ha|]. apply negb_true_iff, Z.eqb_neq. intros Heq.
  specialize (Hnone b Hb). unfold references in Hnone.
  rewrite Hba, Heq in Hnone. simpl in Hnone.
  rewrite Z.eqb_refl in Hnone. discriminate.
Qed.

(** ** Further properties of [home] *)

(** X2.  A POST to [/] whose [delete_book_id] is text within ASCII that
    is not a decimal integer (white space around it, one sign and single
    underscores between digits allowed) flashes "Invalid book ID!" in
    category [error] and writes nothing. *)
Theorem home_rejects_non_integer_id
    (E : Engine) (st : Store) (fl : list flash_t) (req : Request)
    (text : string) :
  method req = POST ->
  multidict_get "delete_book_id" (form req) = Some text ->
  text <> EmptyString ->
  ascii_only text = true ->
  Py.int text = None ->
  serve (home E req) st fl =
  (Ok (redirect "home"), st, (fl ++ [("error", "Invalid book ID!")])%list, []).
Proof.
  intros Hm Hf Hne _ Hint. apply home_post_invalid with text; auto.
  destruct text; [congruence|reflexivity].
Qed.

Lemma home_rejects_non_integer_id_witness :
  serve (home sqlite_default (post_form [("delete_book_id", "1; DROP")]))
        library [] =
  (Ok (redirect "home"), library, [("error", "Invalid book ID!")], []).
Proof.
  apply (home_rejects_non_integer_id sqlite_default library []
           (post_form [("delete_book_id", "1; DROP")]) "1; DROP").
  - reflexivity.
  - reflexivity.
  - discriminate.
  - reflexivity.
  - vm_compute. reflexivity.
Defined.

(** X3.  A POST to [/] that carries no [delete_book_id], or an empty one,
    redirects to [home] with nothing flashed and nothing written. *)
Theorem home_post_without_id_is_silent
    (E : Engine) (st : Store) (fl : list flash_t) (req : Request) :
  method req = POST ->
  multidict_get "delete_book_id" (form req) = None \/
  multidict_get "delete_book_id" (form req) = Some EmptyString ->
  serve (home E req) st fl = (Ok (redirect "home"), st, fl, []).
Proof.
  intros Hm Hnone. apply home_post_no_id; [exact Hm|].
  destruct Hnone as [-> | ->]; reflexivity.
Qed.

Lemma home_post_without_id_is_silent_witness :
  serve (home sqlite_default (post_form [("delete_book_id", EmptyString)]))
        library [("message", "earlier")] =
  (Ok (redirect "home"), library, [("message", "earlier")], []).
Proof.
  apply (home_post_without_id_is_silent sqlite_default library
           [("message", "earlier")]
           (post_form [("delete_book_id", EmptyString)])).
  - reflexivity.
  - right. reflexivity.
Defined.


(** X5.  [home] keeps the tables consistent: when primary keys and isbns are
    unique and every book references a stored author, the same holds of
    the tables after any request, and of the tables at each commit the
    request makes. *)
Theorem home_keeps_tables_consistent
    (E : Engine) (st st' : Store) (fl fl' : list flash_t) (req : Request)
    (r : Outcome Response) (commits : list Store) :
  well_formed st ->
  referential st ->
  serve (home E req) st fl = (r, st', fl', commits) ->
  (well_formed st' /\ referential st') /\
  (forall snapshot, In snapshot commits ->
     well_formed snapshot /\ referential snapshot).
Proof.
  intros Hwf Href Hrun.
  destruct (method req) eqn:Hm.
  - rewrite (home_get E st fl req Hm) in Hrun.
    injection Hrun as <- <- <- <-. split; [now split|]. intros s [].
  - destruct (home_post_cases E st fl req Hm)
      as [H|[H|[H|[(H & _)|(b & Hb & [H|(a & Ha & Hba & Hnone & H)])]]]];
      rewrite H in Hrun; injection Hrun as <- <- <- <-.
    + split; [now split|]. intros s [].
    + split; [now split|]. intros s [].
    + split; [now split|]. intros s [].
    + split; [now split|]. intros s [].
    + assert (Hone : well_formed (without_book (Book.id b) st) /\
                     referential (without_book (Book.id b) st)).
      { split; [now apply well_formed_without_book|
                now apply referential_without_book]. }
      split; [exact Hone|]. intros s [<-|[]]. exact Hone.
    + assert (Hone : well_formed (without_book (Book.id b) st) /\
                     referential (without_book (Book.id b) st)).
      { split; [now apply well_formed_without_book|
                now apply referential_without_book]. }
      assert (Htwo : well_formed (without_author (Author.id a)
                                    (without_book (Book.id b) st)) /\
                     referential (without_author (Author.id a)
                                    (without_book (Book.id b) st))).
      { split; [now apply well_formed_without_author|].
        apply referential_without_author; [tauto|exact Hnone]. }
      split; [exact Htwo|]. intros s [<-|[<-|[]]]; assumption.
Qed.

Lemma library_well_formed : well_formed library.
Proof.
  repeat split; try reflexivity.
  simpl. repeat constructor; simpl; intuition discriminate.
Qed.

Lemma library_referential : referential library.
Proof.
  intros b [<-|[<-|[<-|[]]]].
  - exists herbert. split; [now left|reflexivity].
  - exists le_guin. split; [right; now left|reflexivity].
  - exists le_guin. split; [right; now left|reflexivity].
Qed.

Lemma library_delete_dune :
  serve (home sqlite_default (post_form [("delete_book_id", "1")])) library [] =
  (Ok (redirect "home"), without_author 1 (without_book 1 library),
   [("success", "Book successfully deleted!")],
   [without_book 1 library; without_author 1 (without_book 1 library)]).
Proof. vm_compute. reflexivity. Qed.

Lemma home_keeps_tables_consistent_witness :
  well_formed (without_author 1 (without_book 1 library)) /\
  referential (without_author 1 (without_book 1 library)).
Proof.
  exact (proj1 (home_keeps_tables_consistent sqlite_default library _ [] _
                  (post_form [("delete_book_id", "1")]) _ _
                  library_well_formed library_referential
                  library_delete_dune)).
Defined.

(** X6.  Repeating a delete request: whatever a POST to [/] with an
    integer [delete_book_id] within signed 64 bits does the first time,
    the same request sent again finds no such book, flashes "Book ID not
    found!" and writes nothing. *)
Theorem home_delete_again_finds_nothing
    (E : Engine) (st st1 : Store) (fl fl1 : list flash_t) (req : Request)
    (text : string) (n : Z) (r1 : Outcome Response) (commits1 : list Store) :
  method req = POST ->
  multidict_get "delete_book_id" (form req) = Some text ->
  Py.int text = Some n ->
  Sql.int64 n = true ->
  serve (home E req) st fl = (r1, st1, fl1, commits1) ->
  serve (home E req) st1 fl1 =
  (Ok (redirect "home"), st1,
   (fl1 ++ [("error", "Book ID not found!")])%list, []).
Proof.
  intros Hm Hf Hi Hrange Hfirst.
  apply home_post_absent with text n; auto.
  destruct (Book_get n st) as [b|] eqn:Hget.
  - assert (Hid : Book.id b = n)
      by (apply find_some in Hget as [_ Hid]; now apply Z.eqb_eq).
    rewrite (home_post_present E st fl req text n Hm Hf Hi b Hget) in Hfirst.
    assert (Hgone : forall x, In x (books (without_book (Book.id b) st)) ->
                              Book.id x <> n).
    { intros x Hx. simpl in Hx. apply filter_In in Hx as [_ Hx].
      apply negb_true_iff, Z.eqb_neq in Hx. congruence. }
    apply (find_absent Book.id).
    destruct (Z.eqb (Book_count_by_author (Book.author_id b)
                       (without_book (Book.id b) st)) 0);
      [destruct (Author_get (Book.author_id b) (without_book (Book.id b) st))|];
      injection Hfirst as <- <- <- <-; exact Hgone.
  - rewrite (home_post_absent E st fl req text n Hm Hf Hi Hget Hrange)
      in Hfirst.
    injection Hfirst as <- <- <- <-. exact Hget.
Qed.

Lemma home_delete_again_finds_nothing_witness :
  serve (home sqlite_default (post_form [("delete_book_id", "1")]))
        (without_author 1 (without_book 1 library))
        [("success", "Book successfully deleted!")] =
  (Ok (redirect "home"), without_author 1 (without_book 1 library),
   [("success", "Book successfully deleted!");
    ("error", "Book ID not found!")], []).
Proof.
  apply (home_delete_again_finds_nothing sqlite_default library _ [] _
           (post_form [("delete_book_id", "1")]) "1" 1 _ _
           eq_refl eq_refl eq_refl eq_refl library_delete_dune).
Defined.

(** X7.  Submitting the id of a stored book as [str] prints it deletes that
    book: a POST to [/] whose [delete_book_id] is [str(B.id)] removes
    [B], and only rows with its id, from the books table and flashes
    success. *)
Theorem home_deletes_book_named_by_its_id
    (E : Engine) (st : Store) (fl : list flash_t) (req : Request)
    (B : Book.t) :
  method req = POST ->
  multidict_get "delete_book_id" (form req) =
    Some (Format.str_int (Book.id B)) ->
  distinct (map Book.id (books st)) = true ->
  In B (books st) ->
  exists st' commits,
    serve (home E req) st fl =
      (Ok (redirect "home"), st',
       (fl ++ [("success", "Book successfully deleted!")])%list, commits) /\
    books st' = books (without_book (Book.id B) st) /\
    ~ In B (books st').
Proof.
  intros Hm Hf Hd HB.
  assert (Hget : Book_get (Book.id B) st = Some B)
    by (apply (find_by_key Book.id); assumption).
  pose proof (home_post_present E st fl req _ _ Hm Hf
                (int_str_roundtrip (Book.id B)) B Hget) as Hrun.
  cbv zeta in Hrun. rewrite Hrun.
  destruct (Z.eqb (Book_count_by_author (Book.author_id B)
                     (without_book (Book.id B) st)) 0);
    [destruct (Author_get (Book.author_id B) (without_book (Book.id B) st))|];
    do 2 eexists; (split; [reflexivity|]);
    (split; [reflexivity|apply (not_in_without_book st B)]).
Qed.

Lemma home_deletes_book_named_by_its_id_witness :
  exists st' commits,
    serve (home sqlite_default
             (post_form [("delete_book_id", Format.str_int 3)]))
          library [] =
      (Ok (redirect "home"), st',
       [("success", "Book successfully deleted!")], commits) /\
    books st' = [dune; earthsea] /\
    ~ In dispossessed (books st').
Proof.
  apply (home_deletes_book_named_by_its_id sqlite_default library []
           (post_form [("delete_book_id", Format.str_int 3)]) dispossessed).
  - reflexivity.
  - reflexivity.
  - reflexivity.
  - simpl. auto.
Defined.

(** ** Further properties of the listings *)

Lemma lower_empty_iff (s : string) :
  Sql.lower s = EmptyString <-> s = EmptyString.
Proof. destruct s; simpl; split; congruence. Qed.

Lemma lower_all_percent (s : string) :
  all_percent s = true -> Sql.lower s = s.
Proof.
  induction s as [|c s IH]; simpl; [reflexivity|].
  intros H. apply andb_true_iff in H as [Hc Hs].
  apply Ascii.eqb_eq in Hc. subst c. now rewrite (IH Hs).
Qed.

Lemma all_percent_append (a b : string) :
  all_percent (a ++ b) = all_percent a && all_percent b.
Proof.
  induction a as [|c a IH]; simpl; [reflexivity|].
  now rewrite IH, andb_assoc.
Qed.

Lemma like_star_here (k : list string -> bool) (t : list string) :
  k t = true -> Sql.like_star k t = true.
Proof. intros H. destruct t; simpl; now rewrite H. Qed.

Lemma like_all_percent (p t : list string) :
  Forall (eq "%") p -> p <> [] -> Sql.like_chars p t = true.
Proof.
  revert t. induction p as [|c p IH]; intros t Hp Hne; [congruence|].
  inversion Hp as [|? ? Hc Hp']; subst. simpl.
  destruct p as [|d p].
  - apply like_star_spec. exists t, []. now rewrite app_nil_r.
  - apply like_star_here. apply IH; [exact Hp'|discriminate].
Qed.

Lemma all_percent_chars (s : string) :
  all_percent s = true ->
  Forall (eq "%") (Utf8.chars s) /\ Sql.cstring s = s.
Proof.
  induction s as [|c s IH]; simpl; [split; [constructor|reflexivity]|].
  intros H. apply andb_true_iff in H as [Hc Hs].
  apply Ascii.eqb_eq in Hc. subst c. destruct (IH Hs) as [Hall Hcs].
  simpl. split; [now constructor|now rewrite Hcs].
Qed.

Lemma matches_all_percent (q : string) (r : Row) :
  all_percent q = true -> matches q r = true.
Proof.
  intros Hq. unfold matches, Sql.ilike, Sql.like.
  assert (Hp : all_percent ("%" ++ q ++ "%") = true)
    by (simpl; rewrite all_percent_append, Hq; reflexivity).
  rewrite (lower_all_percent _ Hp).
  destruct (all_percent_chars _ Hp) as [Hall Hcs]. rewrite Hcs.
  rewrite like_all_percent; [reflexivity|exact Hall|].
  simpl. discriminate.
Qed.

Lemma matches_lower (q1 q2 : string) (r : Row) :
  Sql.lower q1 = Sql.lower q2 -> matches q1 r = matches q2 r.
Proof.
  intros Hq. unfold matches, Sql.ilike.
  change ("%" ++ q1 ++ "%") with (String "%" (q1 ++ "%")).
  change ("%" ++ q2 ++ "%") with (String "%" (q2 ++ "%")).
  simpl. now rewrite !lower_append, Hq.
Qed.

Lemma filter_everything {A : Type} (f : A -> bool) (l : list A) :
  (forall x, f x = true) -> filter f l = l.
Proof.
  intros Hf. induction l as [|x l IH]; simpl; [reflexivity|].
  now rewrite Hf, IH.
Qed.

(** X8.  A search term made of white space only, that is of characters
    that [str.isspace] holds of, is no search: the GET branch of [home]
    lists every joined row and echoes the empty string. *)
Theorem home_blank_search_lists_everything
    (E : Engine) (st : Store) (fl : list flash_t) (req : Request) :
  method req = GET ->
  all_space (get_default (args req) "search" EmptyString) = true ->
  exists rows,
    serve (home E req) st fl =
      (Ok (render_home rows (Some EmptyString)), st, fl, []) /\
    Permutation rows (join st).
Proof.
  intros Hm Hblank. eexists. split.
  - rewrite (home_get E st fl req Hm).
    now rewrite (strip_all_space _ Hblank).
  - apply (home_books_query_perm st EmptyString).
Qed.

Lemma home_blank_search_lists_everything_witness :
  exists rows,
    serve (home sqlite_default
             (get_args [("search", Utf8.encode 160 ++ " " ++ Utf8.encode 8195)]))
          library [] =
      (Ok (render_home rows (Some EmptyString)), library, [], []) /\
    Permutation rows (join library).
Proof.
  apply (home_blank_search_lists_everything sqlite_default library []
           (get_args [("search", Utf8.encode 160 ++ " " ++ Utf8.encode 8195)]));
    vm_compute; reflexivity.
Defined.

(** X9.  The search ignores the case of ASCII letters in the search term: two
    GET requests to [/] with the same [sort_by] and [direction], whose
    stripped search terms are equal once lowered, list the same rows in
    the same order. *)
Theorem home_search_ignores_case_of_the_term
    (E : Engine) (st : Store) (fl : list flash_t) (req1 req2 : Request) :
  method req1 = GET ->
  method req2 = GET ->
  get_default (args req1) "sort_by" "title" =
    get_default (args req2) "sort_by" "title" ->
  get_default (args req1) "direction" "asc" =
    get_default (args req2) "direction" "asc" ->
  Sql.lower (Py.strip (get_default (args req1) "search" EmptyString)) =
    Sql.lower (Py.strip (get_default (args req2) "search" EmptyString)) ->
  exists rows q1 q2,
    serve (home E req1) st fl = (Ok (render_home rows q1), st, fl, []) /\
    serve (home E req2) st fl = (Ok (render_home rows q2), st, fl, []).
Proof.
  intros Hm1 Hm2 Hsort Hdir Hlow.
  do 3 eexists. split; [now apply home_get|].
  rewrite (home_get E st fl req2 Hm2). do 3 f_equal.
  rewrite <- Hsort, <- Hdir. unfold home_books_query.
  set (q1 := Py.strip (get_default (args req1) "search" EmptyString)) in *.
  set (q2 := Py.strip (get_default (args req2) "search" EmptyString)) in *.
  assert (Htruthy : Py.truthy q2 = Py.truthy q1).
  { destruct q1, q2; simpl in *; congruence. }
  rewrite Htruthy.
  rewrite (filter_ext (matches q2) (matches q1));
    [|intros r; now apply matches_lower].
  f_equal.
Qed.

Lemma home_search_ignores_case_of_the_term_witness :
  exists rows q1 q2,
    serve (home sqlite_default (get_args [("search", "DUNE")])) library [] =
      (Ok (render_home rows q1), library, [], []) /\
    serve (home sqlite_default (get_args [("search", "dune ")])) library [] =
      (Ok (render_home rows q2), library, [], []).
Proof.
  apply (home_search_ignores_case_of_the_term sqlite_default library []
           (get_args [("search", "DUNE")]) (get_args [("search", "dune ")]));
    reflexivity.
Defined.

(** X10.  A search term made only of percent signs filters nothing: the GET
    branch of [home] lists every joined row, as it does without a search
    term. *)
Theorem home_percent_search_lists_everything
    (E : Engine) (st : Store) (fl : list flash_t) (req : Request) :
  method req = GET ->
  all_percent (Py.strip (get_default (args req) "search" EmptyString)) = true ->
  exists rows q,
    serve (home E req) st fl = (Ok (render_home rows q), st, fl, []) /\
    Permutation rows (join st).
Proof.
  intros Hm Hpct. do 2 eexists. split; [now apply home_get|].
  rewrite home_books_query_perm.
  destruct (Py.truthy _); [|reflexivity].
  rewrite filter_everything; [reflexivity|].
  intros r. now apply matches_all_percent.
Qed.

Lemma home_percent_search_lists_everything_witness :
  exists rows q,
    serve (home sqlite_default (get_args [("search", "%%")])) library [] =
      (Ok (render_home rows q), library, [], []) /\
    Permutation rows (join library).
Proof.
  apply (home_percent_search_lists_everything sqlite_default library []
           (get_args [("search", "%%")])); reflexivity.
Defined.

(** X11.  For the directions ["asc"] and ["desc"] the two listing endpoints
    agree: a GET to [/] without search term and a request to [/library]
    with the same [sort_by] and [direction] list the same rows in the same
    order. *)
Theorem home_and_library_agree
    (E : Engine) (st : Store) (fl : list flash_t) (req : Request) :
  method req = GET ->
  Py.strip (get_default (args req) "search" EmptyString) = EmptyString ->
  get_default (args req) "direction" "asc" = "asc" \/
  get_default (args req) "direction" "asc" = "desc" ->
  exists rows,
    serve (home E req) st fl =
      (Ok (render_home rows (Some EmptyString)), st, fl, []) /\
    serve (library_home E req) st fl =
      (Ok (render_home rows None), st, fl, []).
Proof.
  intros Hm Hs Hd. eexists. split.
  - rewrite (home_get E st fl req Hm), Hs. reflexivity.
  - rewrite library_get. do 4 f_equal.
    unfold library_books_query, home_books_query. simpl.
    destruct (String.eqb_spec (get_default (args req) "sort_by" "title")
                              "author") as [Ha|Ha];
      destruct (String.eqb_spec (get_default (args req) "sort_by" "title")
                                "title") as [Ht|Ht];
      try rewrite Ha; try rewrite Ht; simpl;
      try (apply String.eqb_neq in Ha; rewrite Ha; simpl);
      destruct Hd as [-> | ->]; reflexivity.
Qed.

Lemma home_and_library_agree_witness :
  exists rows,
    serve (home sqlite_default
             (get_args [("sort_by", "author"); ("direction", "desc")]))
          library [] =
      (Ok (render_home rows (Some EmptyString)), library, [], []) /\
    serve (library_home sqlite_default
             (get_args [("sort_by", "author"); ("direction", "desc")]))
          library [] =
      (Ok (render_home rows None), library, [], []).
Proof.
  apply (home_and_library_agree sqlite_default library []
           (get_args [("sort_by", "author"); ("direction", "desc")]));
    try reflexivity.
  right. reflexivity.
Defined.

(** X12.  [library_home] never filters and never writes: whatever the request
    (its method, its form, a [search] argument), it lists every joined row
    as often as the join holds it, leaves the tables and the flash queue
    as they are, and commits nothing. *)
Theorem library_lists_every_joined_row
    (E : Engine) (st : Store) (fl : list flash_t) (req : Request) :
  exists rows,
    serve (library_home E req) st fl =
      (Ok (render_home rows None), st, fl, []) /\
    Permutation rows (join st) /\
    (forall b a, In (b, a) rows <->
       In b (books st) /\ In a (authors st) /\
       Book.author_id b = Sql.Int (Author.id a)).
Proof.
  eexists. split; [apply library_get|].
  assert (Hperm : forall sb d,
            Permutation (library_books_query sb d st) (join st))
    by (intros sb d; apply order_by_perm).
  split; [apply Hperm|].
  intros b a. rewrite <- join_In. split; apply Permutation_in.
  - apply Hperm.
  - symmetry. apply Hperm.
Qed.

(** ** Row ids *)

Lemma fold_max_bounds (l : list Z) (a : Z) :
  a <= fold_left Z.max l a /\
  forall x, In x l -> x <= fold_left Z.max l a.
Proof.
  revert a. induction l as [|y l IH]; intros a; simpl.
  - split; [lia|tauto].
  - destruct (IH (Z.max a y)) as [Hge Hall]. split; [lia|].
    intros x [<-|Hx]; [lia|now apply Hall].
Qed.

Lemma next_rowid_fresh (ids : list Z) (i : Z) :
  In i ids -> i < next_rowid ids.
Proof.
  destruct ids as [|j rest]; simpl; [tauto|].
  destruct (fold_max_bounds rest j) as [Hge Hall].
  intros [<-|Hi]; [lia|]. specialize (Hall i Hi). lia.
Qed.

Lemma distinct_snoc (l : list Z) (k : Z) :
  distinct l = true -> (forall i, In i l -> i <> k) ->
  distinct (l ++ [k]) = true.
Proof.
  induction l as [|j l IH]; simpl; [reflexivity|].
  intros H Hfresh. apply andb_true_iff in H as [Hj Hl].
  rewrite IH by auto. rewrite andb_true_r.
  apply negb_true_iff in Hj. apply negb_true_iff.
  rewrite existsb_app, Hj. simpl. rewrite orb_false_r.
  apply Z.eqb_neq. apply Hfresh. now left.
Qed.

Lemma NoDup_snoc {A : Type} (l : list A) (x : A) :
  NoDup l -> ~ In x l -> NoDup (l ++ [x]).
Proof.
  intros Hl Hx. apply NoDup_app.
  - exact Hl.
  - repeat constructor. intros [].
  - intros y Hy [<-|[]]. contradiction.
Qed.

(** ** Further properties of [add_author] *)

Lemma add_author_get
    (E : Engine) (st : Store) (fl : list flash_t) (req : Request) :
  method req = GET ->
  serve (add_author E req) st fl = (Ok render_add_author, st, fl, []).
Proof. intros Hm. unfold serve, add_author, ret. now rewrite Hm. Qed.

(** Every way a request to [/add_author] can end. *)
Lemma add_author_cases
    (E : Engine) (st : Store) (fl : list flash_t) (req : Request) :
  (exists resp fl', serve (add_author E req) st fl = (Ok resp, st, fl', [])) \/
  (exists n b fl',
     multidict_get "name" (form req) = Some n /\
     multidict_get "birthdate" (form req) = Some b /\
     n <> EmptyString /\ b <> EmptyString /\
     let row := {| Author.id := next_rowid (map Author.id (authors st));
                   Author.name := n;
                   Author.birth_date := Some b;
                   Author.date_of_death :=
                     multidict_get "date_of_death" (form req) |} in
     let st' := {| authors := authors st ++ [row]; books := books st |} in
     serve (add_author E req) st fl =
       (Ok (redirect "add_author"), st', fl', [st'])).
Proof.
  destruct (method req) eqn:Hm.
  - left. do 2 eexists. now apply add_author_get.
  - destruct (multidict_get "name" (form req)) as [n|] eqn:Hn;
      [destruct (multidict_get "birthdate" (form req)) as [b|] eqn:Hb;
       [destruct (Py.truthy n) eqn:Htn; [destruct (Py.truthy b) eqn:Htb|]|]|].
    + right. exists n, b. eexists.
      split; [reflexivity|]. split; [reflexivity|].
      split; [destruct n; [discriminate|congruence]|].
      split; [destruct b; [discriminate|congruence]|].
      now apply add_author_accepted.
    + left. do 2 eexists. apply add_author_rejected; [exact Hm|].
      right. rewrite Hb. exact Htb.
    + left. do 2 eexists. apply add_author_rejected; [exact Hm|].
      left. rewrite Hn. exact Htn.
    + left. do 2 eexists. apply add_author_rejected; [exact Hm|].
      right. now rewrite Hb.
    + left. do 2 eexists. apply add_author_rejected; [exact Hm|].
      left. now rewrite Hn.
Qed.

(** X13.  [add_author] answers every request on every state of the tables: it
    never raises.  It leaves the books table alone and never removes or
    changes an author row; a row it adds gets an id that no stored author
    has, and a larger one than every stored author's while the stored ids
    are below the last rowid, 2^63 - 1.  Unique keys and isbns, and the
    references of books to stored authors, are kept. *)
Theorem add_author_always_answers
    (E : Engine) (st : Store) (fl : list flash_t) (req : Request) :
  exists resp st' fl' commits,
    serve (add_author E req) st fl = (Ok resp, st', fl', commits) /\
    books st' = books st /\
    (authors st' = authors st \/
     exists row, authors st' = (authors st ++ [row])%list /\
       (forall a, In a (authors st) -> Author.id a <> Author.id row) /\
       ((forall a, In a (authors st) -> Author.id a < 2 ^ 63 - 1) ->
        forall a, In a (authors st) -> Author.id a < Author.id row)) /\
    (well_formed st -> well_formed st') /\
    (referential st -> referential st').
Proof.
  destruct (add_author_cases E st fl req)
    as [(resp & fl' & H)|(n & b & fl' & _ & _ & _ & _ & H)];
    cbv zeta in H; rewrite H; do 4 eexists;
    (split; [reflexivity|]).
  - split; [reflexivity|]. split; [now left|]. split; auto.
  - simpl. split; [reflexivity|].
    assert (Hfresh : forall a, In a (authors st) ->
              Author.id a < next_rowid (map Author.id (authors st))).
    { intros a Ha. apply next_rowid_fresh. now apply in_map. }
    split.
    { right. eexists. split; [reflexivity|]. split.
      - intros a Ha. exact (Z.lt_neq _ _ (Hfresh a Ha)).
      - intros _. exact Hfresh. }
    split.
    + intros (Ha & Hb & Hi). repeat split; simpl; auto.
      rewrite map_app. simpl. apply distinct_snoc; [exact Ha|].
      intros i Hi' Heq. apply in_map_iff in Hi' as (a & <- & Hin).
      specialize (Hfresh a Hin). lia.
    + intros Href x Hx. simpl in Hx.
      destruct (Href x Hx) as (a & Ha & Hxa).
      exists a. split; [|exact Hxa]. simpl. apply in_or_app. now left.
Qed.

(** X14.  No uniqueness is enforced on author names: sending the same accepted
    form to [/add_author] twice stores two author rows with that name and
    birth date, under two different ids. *)
Theorem add_author_twice_stores_two_rows
    (E : Engine) (st st1 st2 : Store) (fl fl1 fl2 : list flash_t)
    (req : Request) (n b : string)
    (r1 r2 : Outcome Response) (commits1 commits2 : list Store) :
  method req = POST ->
  multidict_get "name" (form req) = Some n ->
  multidict_get "birthdate" (form req) = Some b ->
  n <> EmptyString -> b <> EmptyString ->
  serve (add_author E req) st fl = (r1, st1, fl1, commits1) ->
  serve (add_author E req) st1 fl1 = (r2, st2, fl2, commits2) ->
  exists row1 row2,
    authors st2 = (authors st ++ [row1; row2])%list /\
    Author.name row1 = n /\ Author.name row2 = n /\
    Author.birth_date row1 = Some b /\ Author.birth_date row2 = Some b /\
    Author.id row1 < Author.id row2.
Proof.
  intros Hm Hn Hb Hne Hbe Hfirst Hsecond.
  assert (Htn : Py.truthy n = true) by (destruct n; [congruence|reflexivity]).
  assert (Htb : Py.truthy b = true) by (destruct b; [congruence|reflexivity]).
  rewrite (add_author_accepted E st fl req Hm n b Hn Hb Htn Htb) in Hfirst.
  injection Hfirst as <- <- <- <-.
  rewrite (add_author_accepted E _ _ req Hm n b Hn Hb Htn Htb) in Hsecond.
  injection Hsecond as <- <- <- <-.
  do 2 eexists. split; [simpl; rewrite <- app_assoc; reflexivity|].
  simpl. repeat split.
  apply next_rowid_fresh. rewrite map_app. apply in_or_app. right. now left.
Qed.

Lemma add_author_twice_stores_two_rows_witness :
  exists row1 row2,
    authors
      {| authors := [herbert; le_guin;
                     {| Author.id := 3; Author.name := "Frank Herbert";
                        Author.birth_date := Some "1920";
                        Author.date_of_death := None |};
                     {| Author.id := 4; Author.name := "Frank Herbert";
                        Author.birth_date := Some "1920";
                        Author.date_of_death := None |}];
         books := books library |} =
      [herbert; le_guin; row1; row2] /\
    Author.name row1 = "Frank Herbert" /\ Author.name row2 = "Frank Herbert" /\
    Author.birth_date row1 = Some "1920" /\
    Author.birth_date row2 = Some "1920" /\
    Author.id row1 < Author.id row2.
Proof.
  apply (add_author_twice_stores_two_rows sqlite_default library
           {| authors := [herbert; le_guin;
                          {| Author.id := 3; Author.name := "Frank Herbert";
                             Author.birth_date := Some "1920";
                             Author.date_of_death := None |}];
              books := books library |}
           _ []
           [("message", "Author successfully added!");
            ("success", "Author successfully added!")]
           [("message", "Author successfully added!");
            ("success", "Author successfully added!");
            ("message", "Author successfully added!");
            ("success", "Author successfully added!")]
           (post_form [("name", "Frank Herbert"); ("birthdate", "1920")])
           "Frank Herbert" "1920"
           (Ok (redirect "add_author")) (Ok (redirect "add_author"))
           [{| authors := [herbert; le_guin;
                           {| Author.id := 3; Author.name := "Frank Herbert";
                              Author.birth_date := Some "1920";
                              Author.date_of_death := None |}];
               books := books library |}]
           [{| authors := [herbert; le_guin;
                           {| Author.id := 3; Author.name := "Frank Herbert";
                              Author.birth_date := Some "1920";
                              Author.date_of_death := None |};
                           {| Author.id := 4; Author.name := "Frank Herbert";
                              Author.birth_date := Some "1920";
                              Author.date_of_death := None |}];
               books := books library |}]);
    try reflexivity; try discriminate; vm_compute; reflexivity.
Defined.

(** ** Further properties of [add_book] *)

Lemma add_book_get
    (E : Engine) (st : Store) (fl : list flash_t) (req : Request) :
  method req = GET ->
  serve (add_book E req) st fl = (Ok (render_add_book (authors st)), st, fl, []).
Proof.
  intros Hm. unfold serve, add_book, query, flush, bind, ret. simpl.
  now rewrite Hm.
Qed.

Lemma add_book_incomplete
    (E : Engine) (st : Store) (fl : list flash_t) (req : Request) :
  method req = POST ->
  Py.truthy_opt (multidict_get "isbn" (form req)) = false \/
  Py.truthy_opt (multidict_get "title" (form req)) = false \/
  Py.truthy_opt (multidict_get "publication_year" (form req)) = false \/
  Py.truthy_opt (multidict_get "author_id" (form req)) = false ->
  serve (add_book E req) st fl =
  (Ok (redirect "add_book"), st,
   (fl ++ [("message", "Please fill in all fields.")])%list, []).
Proof.
  intros Hm Hbad.
  unfold serve, add_book, query, flush, bind, ret.
  cbn [durable txn pending flashes journal apply_ops]. rewrite Hm.
  destruct (multidict_get "isbn" (form req)) as [i|];
    [|reflexivity].
  destruct (multidict_get "title" (form req)) as [t|];
    [|reflexivity].
  destruct (multidict_get "publication_year" (form req)) as [y|];
    [|reflexivity].
  destruct (multidict_get "author_id" (form req)) as [a|];
    [|reflexivity].
  cbn [Py.truthy_opt] in Hbad.
  destruct (Py.truthy i); [|reflexivity].
  destruct (Py.truthy t); [|reflexivity].
  destruct (Py.truthy y); [|reflexivity].
  destruct (Py.truthy a); [|reflexivity].
  exfalso. intuition discriminate.
Qed.

Lemma duplicate_isbn_iff (st : Store) (i : string) :
  existsb (fun b => String.eqb (Book.isbn b) i) (books st) = true <->
  exists b, In b (books st) /\ Book.isbn b = i.
Proof.
  rewrite existsb_exists. split; intros (b & Hb & Hi); exists b;
    (split; [exact Hb|now apply String.eqb_eq]).
Qed.

Lemma is_null_iff (v : Sql.value) :
  match v with Sql.Null => true | _ => false end = true <-> v = Sql.Null.
Proof. destruct v; split; congruence. Qed.

Lemma no_such_author_iff (fk : bool) (v : Sql.value) (st : Store) :
  fk && negb (existsb (fun au => Sql.value_eqb v (Sql.Int (Author.id au)))
                      (authors st)) = true <->
  fk = true /\ forall au, In au (authors st) -> v <> Sql.Int (Author.id au).
Proof.
  rewrite andb_true_iff, negb_true_iff. split; intros [Hfk Hno]; split; auto.
  - intros au Hau Heq.
    assert (existsb (fun au => Sql.value_eqb v (Sql.Int (Author.id au)))
                    (authors st) = true); [|congruence].
    apply existsb_exists. exists au. split; [exact Hau|].
    now apply value_eqb_Int.
  - destruct (existsb _ (authors st)) eqn:Hex; [|reflexivity].
    apply existsb_exists in Hex as (au & Hau & Heq).
    apply value_eqb_Int in Heq. now apply Hno in Hau.
Qed.

Lemma insert_refused_iff (E : Engine) (st : Store) (i t y a : string) :
  apply_op E st (AddBook i t y a) = None <-> constraint_violation E st i a.
Proof.
  unfold constraint_violation. cbn [apply_op].
  rewrite <- duplicate_isbn_iff, <- is_null_iff, <- no_such_author_iff.
  destruct (existsb _ (books st));
    [split; [now left|reflexivity]|].
  destruct (match integer_affinity E a with Sql.Null => true | _ => false end);
    [split; [right; now left|reflexivity]|].
  destruct (foreign_keys E && _);
    [split; [right; now right|reflexivity]|].
  split; [discriminate|]. intros [H|[H|H]]; discriminate.
Qed.

Lemma insert_accepted (E : Engine) (st : Store) (i t y a : string) :
  ~ constraint_violation E st i a ->
  apply_op E st (AddBook i t y a) =
  Some {| authors := authors st;
          books := books st ++
                   [{| Book.id := next_rowid (map Book.id (books st));
                       Book.isbn := i;
                       Book.title := t;
                       Book.publication_year := integer_affinity E y;
                       Book.author_id := integer_affinity E a |}] |}.
Proof.
  intros Hok.
  destruct (apply_op E st (AddBook i t y a)) as [st'|] eqn:Hop;
    [|exfalso; apply Hok; now apply (insert_refused_iff E st i t y a)].
  cbn [apply_op] in Hop.
  destruct (existsb _ (books st)); [discriminate|].
  destruct (match integer_affinity E a with Sql.Null => true | _ => false end);
    [discriminate|].
  destruct (foreign_keys E && _); [discriminate|].
  now injection Hop as <-.
Qed.

(** X15.  A POST to [/add_book] in which any of the four fields is missing or
    empty flashes "Please fill in all fields." and writes nothing. *)
Theorem add_book_rejects_missing_field
    (E : Engine) (st : Store) (fl : list flash_t) (req : Request) :
  method req = POST ->
  Py.truthy_opt (multidict_get "isbn" (form req)) = false \/
  Py.truthy_opt (multidict_get "title" (form req)) = false \/
  Py.truthy_opt (multidict_get "publication_year" (form req)) = false \/
  Py.truthy_opt (multidict_get "author_id" (form req)) = false ->
  serve (add_book E req) st fl =
  (Ok (redirect "add_book"), st,
   (fl ++ [("message", "Please fill in all fields.")])%list, []).
Proof. apply add_book_incomplete. Qed.

Lemma add_book_rejects_missing_field_witness :
  serve (add_book sqlite_default
           (post_form [("isbn", "444"); ("title", "Solaris");
                       ("publication_year", EmptyString); ("author_id", "1")]))
        library [] =
  (Ok (redirect "add_book"), library,
   [("message", "Please fill in all fields.")], []).
Proof.
  apply (add_book_rejects_missing_field sqlite_default library []).
  - reflexivity.
  - right. right. left. reflexivity.
Defined.

(** X16.  A POST to [/add_book] with every field filled in, which the schema
    does not refuse, stores one new book: the row is appended to the
    books table with the submitted isbn and title, with the year and the
    author id as the column affinity reads them, and with an id that no
    stored book has (a larger one than every stored book's while the
    stored ids are below the last rowid, 2^63 - 1); the change is
    committed once and "Book successfully added!" is flashed.  The
    authors table is untouched. *)
Theorem add_book_stores_submitted_book
    (E : Engine) (st : Store) (fl : list flash_t) (req : Request)
    (i t y a : string) :
  method req = POST ->
  multidict_get "isbn" (form req) = Some i ->
  multidict_get "title" (form req) = Some t ->
  multidict_get "publication_year" (form req) = Some y ->
  multidict_get "author_id" (form req) = Some a ->
  Py.truthy i = true /\ Py.truthy t = true /\
  Py.truthy y = true /\ Py.truthy a = true ->
  ~ constraint_violation E st i a ->
  exists row st',
    serve (add_book E req) st fl =
      (Ok (redirect "add_book"), st',
       (fl ++ [("message", "Book successfully added!")])%list, [st']) /\
    authors st' = authors st /\
    books st' = (books st ++ [row])%list /\
    Book.isbn row = i /\ Book.title row = t /\
    Book.publication_year row = integer_affinity E y /\
    Book.author_id row = integer_affinity E a /\
    (forall b, In b (books st) -> Book.id b <> Book.id row) /\
    ((forall b, In b (books st) -> Book.id b < 2 ^ 63 - 1) ->
     forall b, In b (books st) -> Book.id b < Book.id row).
Proof.
  intros Hm Hi Ht Hy Ha Hfilled Hok.
  rewrite (add_book_complete E st fl req i t y a Hm Hi Ht Hy Ha Hfilled).
  rewrite (insert_accepted E st i t y a Hok).
  assert (Hfresh : forall b, In b (books st) ->
            Book.id b < next_rowid (map Book.id (books st))).
  { intros b Hb. apply next_rowid_fresh. now apply in_map. }
  do 2 eexists. split; [reflexivity|]. simpl.
  do 6 (split; [reflexivity|]). split.
  - intros b Hb. exact (Z.lt_neq _ _ (Hfresh b Hb)).
  - intros _. exact Hfresh.
Qed.

Lemma solaris_is_no_violation :
  ~ constraint_violation sqlite_default library "444" "2".
Proof.
  intros [(b & [<-|[<-|[<-|[]]]] & Hi)|[H|[H _]]]; discriminate.
Qed.

Lemma add_book_stores_submitted_book_witness :
  exists row st',
    serve (add_book sqlite_default
             (post_form [("isbn", "444"); ("title", "Solaris");
                         ("publication_year", "1961"); ("author_id", "2")]))
          library [] =
      (Ok (redirect "add_book"), st',
       [("message", "Book successfully added!")], [st']) /\
    authors st' = authors library /\
    books st' = [dune; earthsea; dispossessed; row] /\
    Book.isbn row = "444" /\ Book.title row = "Solaris" /\
    Book.publication_year row = Sql.Int 1961 /\
    Book.author_id row = Sql.Int 2 /\
    (forall b, In b (books library) -> Book.id b <> Book.id row).
Proof.
  destruct (add_book_stores_submitted_book sqlite_default library []
              (post_form [("isbn", "444"); ("title", "Solaris");
                          ("publication_year", "1961"); ("author_id", "2")])
              "444" "Solaris" "1961" "2")
    as (row & st' & H1 & H2 & H3 & H4 & H5 & H6 & H7 & H8 & _);
    try reflexivity.
  - repeat split.
  - exact solaris_is_no_violation.
  - exists row, st'. repeat split; assumption.
Defined.

(** X17.  [add_book] raises nothing but [IntegrityError], and that only for a
    POST with every field filled in that the schema refuses; the tables
    and the flash queue are then as before.  Every other request is
    answered. *)
Theorem add_book_raises_only_on_violation
    (E : Engine) (st : Store) (fl : list flash_t) (req : Request) :
  (exists resp st' fl' commits,
     serve (add_book E req) st fl = (Ok resp, st', fl', commits)) \/
  (serve (add_book E req) st fl = (Raise Py.IntegrityError, st, fl, []) /\
   method req = POST /\
   exists i a,
     multidict_get "isbn" (form req) = Some i /\
     multidict_get "author_id" (form req) = Some a /\
     constraint_violation E st i a).
Proof.
  destruct (method req) eqn:Hm.
  { left. do 4 eexists. now apply add_book_get. }
  destruct (Py.truthy_opt (multidict_get "isbn" (form req))) eqn:Hi;
    [|left; do 4 eexists; apply add_book_incomplete; auto].
  destruct (Py.truthy_opt (multidict_get "title" (form req))) eqn:Ht;
    [|left; do 4 eexists; apply add_book_incomplete; auto].
  destruct (Py.truthy_opt (multidict_get "publication_year" (form req))) eqn:Hy;
    [|left; do 4 eexists; apply add_book_incomplete; auto].
  destruct (Py.truthy_opt (multidict_get "author_id" (form req))) eqn:Ha;
    [|left; do 4 eexists; apply add_book_incomplete; auto 6].
  destruct (multidict_get "isbn" (form req)) as [i|] eqn:Hfi; [|discriminate].
  destruct (multidict_get "title" (form req)) as [t|] eqn:Hft; [|discriminate].
  destruct (multidict_get "publication_year" (form req)) as [y|] eqn:Hfy;
    [|discriminate].
  destruct (multidict_get "author_id" (form req)) as [a|] eqn:Hfa;
    [|discriminate].
  simpl in Hi, Ht, Hy, Ha.
  rewrite (add_book_complete E st fl req i t y a Hm Hfi Hft Hfy Hfa
             (conj Hi (conj Ht (conj Hy Ha)))).
  destruct (apply_op E st (AddBook i t y a)) as [st'|] eqn:Hop.
  - left. do 4 eexists. reflexivity.
  - right. split; [reflexivity|]. split; [reflexivity|].
    exists i, a. split; [reflexivity|]. split; [reflexivity|].
    now apply (insert_refused_iff E st i t y a).
Qed.

(** The tables after an accepted insert of a book. *)
Lemma add_book_cases
    (E : Engine) (st : Store) (fl : list flash_t) (req : Request) :
  (exists r fl', serve (add_book E req) st fl = (r, st, fl', [])) \/
  (exists i t y a,
     multidict_get "isbn" (form req) = Some i /\
     multidict_get "title" (form req) = Some t /\
     multidict_get "publication_year" (form req) = Some y /\
     multidict_get "author_id" (form req) = Some a /\
     ~ constraint_violation E st i a /\
     let row := {| Book.id := next_rowid (map Book.id (books st));
                   Book.isbn := i;
                   Book.title := t;
                   Book.publication_year := integer_affinity E y;
                   Book.author_id := integer_affinity E a |} in
     let st' := {| authors := authors st; books := books st ++ [row] |} in
     serve (add_book E req) st fl =
       (Ok (redirect "add_book"), st',
        (fl ++ [("message", "Book successfully added!")])%list, [st'])).
Proof.
  destruct (method req) eqn:Hm.
  { left. do 2 eexists. now apply add_book_get. }
  destruct (Py.truthy_opt (multidict_get "isbn" (form req))) eqn:Hi;
    [|left; do 2 eexists; apply add_book_incomplete; auto].
  destruct (Py.truthy_opt (multidict_get "title" (form req))) eqn:Ht;
    [|left; do 2 eexists; apply add_book_incomplete; auto].
  destruct (Py.truthy_opt (multidict_get "publication_year" (form req))) eqn:Hy;
    [|left; do 2 eexists; apply add_book_incomplete; auto].
  destruct (Py.truthy_opt (multidict_get "author_id" (form req))) eqn:Ha;
    [|left; do 2 eexists; apply add_book_incomplete; auto 6].
  destruct (multidict_get "isbn" (form req)) as [i|] eqn:Hfi; [|discriminate].
  destruct (multidict_get "title" (form req)) as [t|] eqn:Hft; [|discriminate].
  destruct (multidict_get "publication_year" (form req)) as [y|] eqn:Hfy;
    [|discriminate].
  destruct (multidict_get "author_id" (form req)) as [a|] eqn:Hfa;
    [|discriminate].
  simpl in Hi, Ht, Hy, Ha.
  pose proof (add_book_complete E st fl req i t y a Hm Hfi Hft Hfy Hfa
                (conj Hi (conj Ht (conj Hy Ha)))) as Hrun.
  destruct (apply_op E st (AddBook i t y a)) as [st'|] eqn:Hop.
  - right. exists i, t, y, a. repeat (split; [reflexivity|]).
    assert (Hok : ~ constraint_violation E st i a).
    { intros Hv. apply (insert_refused_iff E st i t y a) in Hv. congruence. }
    split; [exact Hok|]. cbv zeta.
    rewrite (insert_accepted E st i t y a Hok) in Hop.
    injection Hop as <-. exact Hrun.
  - left. do 2 eexists. exact Hrun.
Qed.

(** X18.  [add_book] keeps primary keys and isbns unique, whatever the request;
    when the engine enforces foreign keys it also keeps every book
    referencing a stored author. *)
Theorem add_book_keeps_tables_consistent
    (E : Engine) (st st' : Store) (fl fl' : list flash_t) (req : Request)
    (r : Outcome Response) (commits : list Store) :
  well_formed st ->
  serve (add_book E req) st fl = (r, st', fl', commits) ->
  well_formed st' /\
  (foreign_keys E = true -> referential st -> referential st').
Proof.
  intros Hwf Hrun.
  destruct (add_book_cases E st fl req)
    as [(r0 & fl0 & H)|(i & t & y & a & _ & _ & _ & _ & Hok & H)];
    cbv zeta in H; rewrite H in Hrun; injection Hrun as <- <- <- <-.
  - now split.
  - destruct Hwf as (Ha & Hb & Hi). split.
    + repeat split; simpl.
      * exact Ha.
      * rewrite map_app. simpl. apply distinct_snoc; [exact Hb|].
        intros k Hk Heq. apply (next_rowid_fresh _ k) in Hk. lia.
      * rewrite map_app. simpl. apply NoDup_snoc; [exact Hi|].
        intros Hin. apply Hok. left.
        apply in_map_iff in Hin as (b & Hbi & Hb'). now exists b.
    + intros Hfk Href x Hx. simpl in Hx. simpl.
      apply in_app_or in Hx as [Hx|[<-|[]]]; [now apply Href|]. simpl.
      destruct (existsb (fun au => Sql.value_eqb (integer_affinity E a)
                                     (Sql.Int (Author.id au)))
                        (authors st)) eqn:Hex.
      * apply existsb_exists in Hex as (au & Hau & Heq).
        apply value_eqb_Int in Heq. now exists au.
      * exfalso. apply Hok. right. right.
        apply (no_such_author_iff (foreign_keys E)).
        now rewrite Hfk, Hex.
Qed.

Lemma library_add_solaris :
  serve (add_book sqlite_default
           (post_form [("isbn", "444"); ("title", "Solaris");
                       ("publication_year", "1961"); ("author_id", "2")]))
        library [] =
  (Ok (redirect "add_book"),
   {| authors := [herbert; le_guin];
      books := [dune; earthsea; dispossessed;
                {| Book.id := 4; Book.isbn := "444"; Book.title := "Solaris";
                   Book.publication_year := Sql.Int 1961;
                   Book.author_id := Sql.Int 2 |}] |},
   [("message", "Book successfully added!")],
   [{| authors := [herbert; le_guin];
       books := [dune; earthsea; dispossessed;
                 {| Book.id := 4; Book.isbn := "444"; Book.title := "Solaris";
                    Book.publication_year := Sql.Int 1961;
                    Book.author_id := Sql.Int 2 |}] |}]).
Proof. vm_compute. reflexivity. Qed.

Lemma add_book_keeps_tables_consistent_witness :
  well_formed
    {| authors := [herbert; le_guin];
       books := [dune; earthsea; dispossessed;
                 {| Book.id := 4; Book.isbn := "444"; Book.title := "Solaris";
                    Book.publication_year := Sql.Int 1961;
                    Book.author_id := Sql.Int 2 |}] |}.
Proof.
  exact (proj1 (add_book_keeps_tables_consistent sqlite_default library _ [] _
                  _ _ _ library_well_formed library_add_solaris)).
Defined.

(** ** A new book in the listings *)

Lemma Permutation_filter' {A : Type} (f : A -> bool) (l l' : list A) :
  Permutation l l' -> Permutation (filter f l) (filter f l').
Proof.
  induction 1 as [|x l l' _ IH|x y l|l l' l'' _ IH1 _ IH2]; simpl.
  - constructor.
  - destruct (f x); [now constructor|exact IH].
  - destruct (f x), (f y); try reflexivity. apply perm_swap.
  - now transitivity (filter f l').
Qed.

Lemma filter_nothing {A : Type} (f : A -> bool) (l : list A) :
  (forall x, In x l -> f x = false) -> filter f l = [].
Proof.
  intros Hf. induction l as [|x l IH]; simpl; [reflexivity|].
  rewrite (Hf x (or_introl eq_refl)). apply IH. intros y Hy. apply Hf.
  now right.
Qed.

Lemma referenced_author_unique (st : Store) (b : Book.t) (A : Author.t) :
  distinct (map Author.id (authors st)) = true ->
  In A (authors st) ->
  Book.author_id b = Sql.Int (Author.id A) ->
  filter (fun a => references (Author.id a) b) (authors st) = [A].
Proof.
  intros Hd HA Hb.
  rewrite (filter_ext (fun a => references (Author.id a) b)
                      (fun a => Z.eqb (Author.id a) (Author.id A)))
    by (intros a; unfold references; rewrite Hb; simpl; apply Z.eqb_sym).
  pose proof (at_most_one_with_key Author.id (authors st) (Author.id A) Hd)
    as Hone.
  assert (Hin : In A (filter (fun a => Z.eqb (Author.id a) (Author.id A))
                             (authors st)))
    by (apply filter_In; split; [exact HA|apply Z.eqb_refl]).
  destruct (filter (fun a => Z.eqb (Author.id a) (Author.id A)) (authors st))
    as [|x [|y rest]]; simpl in *; try lia; try tauto.
  destruct Hin as [->|[]]. reflexivity.
Qed.

(** The join after one book row has been appended. *)
Lemma join_after_insert (st : Store) (row : Book.t) :
  join {| authors := authors st; books := books st ++ [row] |} =
  (join st ++
   map (fun a => (row, a))
       (filter (fun a => references (Author.id a) row) (authors st)))%list.
Proof. unfold join. simpl. rewrite flat_map_app. simpl. now rewrite app_nil_r. Qed.

Lemma old_rows_have_old_ids (st : Store) (i : Z) :
  (forall b, In b (books st) -> Book.id b < i) ->
  rows_of_book i (join st) = [].
Proof.
  intros Hold. apply filter_nothing. intros [b a] Hin.
  apply join_In in Hin as (Hb & _). simpl. apply Z.eqb_neq.
  specialize (Hold b Hb). lia.
Qed.

Lemma rows_of_book_app (i : Z) (l l' : list Row) :
  rows_of_book i (l ++ l') = (rows_of_book i l ++ rows_of_book i l')%list.
Proof. apply filter_app. Qed.

Section NewBook.
Variable E : Engine.
Variables (st st' : Store) (fl fl' : list flash_t) (req : Request).
Variables (i t y a : string).
Variables (r : Outcome Response) (commits : list Store).
Hypothesis Hmethod : method req = POST.
Hypothesis Hisbn : multidict_get "isbn" (form req) = Some i.
Hypothesis Htitle : multidict_get "title" (form req) = Some t.
Hypothesis Hyear : multidict_get "publication_year" (form req) = Some y.
Hypothesis Hauthor : multidict_get "author_id" (form req) = Some a.
Hypothesis Hfilled :
  Py.truthy i = true /\ Py.truthy t = true /\
  Py.truthy y = true /\ Py.truthy a = true.
Hypothesis Hok : ~ constraint_violation E st i a.
Hypothesis Hrun : serve (add_book E req) st fl = (r, st', fl', commits).

Let row : Book.t :=
  {| Book.id := next_rowid (map Book.id (books st));
     Book.isbn := i;
     Book.title := t;
     Book.publication_year := integer_affinity E y;
     Book.author_id := integer_affinity E a |}.

Lemma new_book_tables :
  st' = {| authors := authors st; books := books st ++ [row] |}.
Proof.
  rewrite (add_book_complete E st fl req i t y a Hmethod Hisbn Htitle Hyear
             Hauthor Hfilled) in Hrun.
  rewrite (insert_accepted E st i t y a Hok) in Hrun.
  now injection Hrun as _ <- _ _.
Qed.

Lemma new_book_rows_with_author (A : Author.t) :
  distinct (map Author.id (authors st)) = true ->
  In A (authors st) ->
  integer_affinity E a = Sql.Int (Author.id A) ->
  rows_of_book (Book.id row) (join st') = [(row, A)].
Proof.
  intros Hd HA Haff.
  rewrite new_book_tables, join_after_insert, rows_of_book_app.
  rewrite old_rows_have_old_ids
    by (intros b Hb; apply next_rowid_fresh; now apply in_map).
  rewrite (referenced_author_unique st row A Hd HA Haff).
  unfold rows_of_book. simpl. now rewrite Z.eqb_refl.
Qed.

Lemma new_book_rows_without_author :
  (forall au, In au (authors st) ->
     integer_affinity E a <> Sql.Int (Author.id au)) ->
  rows_of_book (Book.id row) (join st') = [].
Proof.
  intros Hnone.
  rewrite new_book_tables, join_after_insert, rows_of_book_app.
  rewrite old_rows_have_old_ids
    by (intros b Hb; apply next_rowid_fresh; now apply in_map).
  rewrite (filter_nothing (fun au => references (Author.id au) row));
    [reflexivity|].
  intros au Hau. unfold references. simpl.
  destruct (Sql.value_eqb (integer_affinity E a) (Sql.Int (Author.id au)))
    eqn:Heq; [|reflexivity].
  apply value_eqb_Int in Heq. now apply Hnone in Hau.
Qed.

End NewBook.

(** A book row appended to the books, and after it an author row that it
    references, appended to the authors. *)
Lemma new_row_joins_later_author (st : Store) (row : Book.t) (A : Author.t) :
  (forall b, In b (books st) -> Book.id b < Book.id row) ->
  (forall au, In au (authors st) -> references (Author.id au) row = false) ->
  references (Author.id A) row = true ->
  rows_of_book (Book.id row)
    (join {| authors := authors st ++ [A]; books := books st ++ [row] |}) =
  [(row, A)].
Proof.
  intros Hold Hnone HA. unfold join. simpl.
  rewrite flat_map_app, rows_of_book_app. simpl. rewrite app_nil_r.
  rewrite filter_app. simpl. rewrite HA.
  rewrite (filter_nothing (fun au => references (Author.id au) row))
    by exact Hnone.
  unfold rows_of_book. simpl. rewrite Z.eqb_refl.
  rewrite (filter_nothing (fun r : Row => Z.eqb (Book.id (fst r)) (Book.id row)));
    [reflexivity|].
  intros [b au] Hin. apply in_flat_map in Hin as (b' & Hb' & Hin).
  apply in_map_iff in Hin as (au' & Heq & _). injection Heq as <- _.
  simpl. apply Z.eqb_neq. specialize (Hold b' Hb'). lia.
Qed.

Lemma find_nothing {A : Type} (f : A -> bool) (l : list A) :
  (forall x, In x l -> f x = false) -> find f l = None.
Proof.
  intros Hf. induction l as [|x l IH]; simpl; [reflexivity|].
  rewrite (Hf x (or_introl eq_refl)). apply IH. intros z Hz. apply Hf.
  now right.
Qed.

Lemma rows_of_book_perm_singleton (i : Z) (rows l : list Row) (x : Row) :
  Permutation rows l -> rows_of_book i l = [x] -> rows_of_book i rows = [x].
Proof.
  intros Hperm Hl. apply Permutation_length_1_inv. rewrite <- Hl.
  apply Permutation_filter'. now symmetry.
Qed.

Lemma rows_of_book_sub_empty (i : Z) (rows l : list Row) :
  (forall x, In x rows -> In x l) ->
  rows_of_book i l = [] -> rows_of_book i rows = [].
Proof.
  intros Hsub Hl. apply filter_nothing. intros x Hx.
  destruct (Z.eqb (Book.id (fst x)) i) eqn:Heq; [|reflexivity].
  assert (Hin : In x (rows_of_book i l))
    by (apply filter_In; split; [now apply Hsub|exact Heq]).
  rewrite Hl in Hin. contradiction.
Qed.

Lemma home_rows_are_joined
    (st : Store) (q sb d : string) (x : Row) :
  In x (home_books_query q sb d st) -> In x (join st).
Proof.
  intros Hx. apply (Permutation_in _ (home_books_query_perm st q sb d)) in Hx.
  destruct (Py.truthy q); [apply filter_In in Hx; tauto|exact Hx].
Qed.

(** X19.  Creating a book and then listing: after an accepted POST to
    [/add_book] whose author_id reads as the id of a stored author [A]
    (author ids being unique), every request to [/library], and every GET
    to [/] without search term, lists the new book exactly once, joined
    with [A]. *)
Theorem added_book_is_listed_with_its_author
    (E : Engine) (st st' : Store) (fl fl' : list flash_t) (req req' : Request)
    (i t y a : string) (r : Outcome Response) (commits : list Store)
    (A : Author.t) :
  method req = POST ->
  multidict_get "isbn" (form req) = Some i ->
  multidict_get "title" (form req) = Some t ->
  multidict_get "publication_year" (form req) = Some y ->
  multidict_get "author_id" (form req) = Some a ->
  Py.truthy i = true /\ Py.truthy t = true /\
  Py.truthy y = true /\ Py.truthy a = true ->
  ~ constraint_violation E st i a ->
  serve (add_book E req) st fl = (r, st', fl', commits) ->
  distinct (map Author.id (authors st)) = true ->
  In A (authors st) ->
  integer_affinity E a = Sql.Int (Author.id A) ->
  exists row rows,
    Book.isbn row = i /\ Book.title row = t /\
    serve (library_home E req') st' fl' =
      (Ok (render_home rows None), st', fl', []) /\
    rows_of_book (Book.id row) rows = [(row, A)] /\
    (method req' = GET ->
     Py.strip (get_default (args req') "search" EmptyString) = EmptyString ->
     exists rows_home,
       serve (home E req') st' fl' =
         (Ok (render_home rows_home (Some EmptyString)), st', fl', []) /\
       rows_of_book (Book.id row) rows_home = [(row, A)]).
Proof.
  intros Hm Hi Ht Hy Ha Hfilled Hok Hrun Hd HA Haff.
  pose proof (new_book_rows_with_author E st st' fl fl' req i t y a r commits
                Hm Hi Ht Hy Ha Hfilled Hok Hrun A Hd HA Haff) as Hrows.
  cbv zeta in Hrows.
  exists {| Book.id := next_rowid (map Book.id (books st));
            Book.isbn := i; Book.title := t;
            Book.publication_year := integer_affinity E y;
            Book.author_id := integer_affinity E a |}.
  eexists. split; [reflexivity|]. split; [reflexivity|].
  split; [apply library_get|]. split.
  - eapply rows_of_book_perm_singleton; [|exact Hrows]. apply order_by_perm.
  - intros Hget Hblank. eexists. split.
    + rewrite (home_get E st' fl' req' Hget), Hblank. reflexivity.
    + eapply rows_of_book_perm_singleton; [|exact Hrows].
      apply (home_books_query_perm st' EmptyString).
Qed.

Lemma added_book_is_listed_with_its_author_witness :
  exists row rows,
    Book.isbn row = "444" /\ Book.title row = "Solaris" /\
    serve (library_home sqlite_default (get_args []))
          {| authors := [herbert; le_guin];
             books := [dune; earthsea; dispossessed;
                       {| Book.id := 4; Book.isbn := "444";
                          Book.title := "Solaris";
                          Book.publication_year := Sql.Int 1961;
                          Book.author_id := Sql.Int 2 |}] |}
          [("message", "Book successfully added!")] =
      (Ok (render_home rows None),
       {| authors := [herbert; le_guin];
          books := [dune; earthsea; dispossessed;
                    {| Book.id := 4; Book.isbn := "444";
                       Book.title := "Solaris";
                       Book.publication_year := Sql.Int 1961;
                       Book.author_id := Sql.Int 2 |}] |},
       [("message", "Book successfully added!")], []) /\
    rows_of_book (Book.id row) rows = [(row, le_guin)].
Proof.
  destruct (added_book_is_listed_with_its_author sqlite_default library _ [] _
              (post_form [("isbn", "444"); ("title", "Solaris");
                          ("publication_year", "1961"); ("author_id", "2")])
              (get_args []) "444" "Solaris" "1961" "2" _ _ le_guin
              eq_refl eq_refl eq_refl eq_refl eq_refl
              (conj eq_refl (conj eq_refl (conj eq_refl eq_refl)))
              solaris_is_no_violation library_add_solaris eq_refl
              (or_intror (or_introl eq_refl)) eq_refl)
    as (row & rows & H1 & H2 & H3 & H4 & _).
  exists row, rows. auto.
Defined.

(** X20.  When the engine does not refuse it, a book whose author_id is no
    stored author's id is stored all the same.  On the tables as this
    insert leaves them the book is in no listing: no request to
    [/library] and no GET to [/] shows it, its [__str__] raises
    [AttributeError], and the tables no longer have every book
    referencing a stored author.  This lasts only while no author has the
    id: once an author row with that id is appended, [/library] lists the
    book, joined with that author. *)
Theorem book_of_unknown_author_is_stored_unlisted
    (E : Engine) (st st' : Store) (fl fl' : list flash_t) (req : Request)
    (i t y a : string) (r : Outcome Response) (commits : list Store) :
  method req = POST ->
  multidict_get "isbn" (form req) = Some i ->
  multidict_get "title" (form req) = Some t ->
  multidict_get "publication_year" (form req) = Some y ->
  multidict_get "author_id" (form req) = Some a ->
  Py.truthy i = true /\ Py.truthy t = true /\
  Py.truthy y = true /\ Py.truthy a = true ->
  ~ constraint_violation E st i a ->
  serve (add_book E req) st fl = (r, st', fl', commits) ->
  (forall au, In au (authors st) ->
     integer_affinity E a <> Sql.Int (Author.id au)) ->
  exists row,
    books st' = (books st ++ [row])%list /\
    Book.isbn row = i /\ Book.title row = t /\
    (forall req', exists rows,
       serve (library_home E req') st' fl' =
         (Ok (render_home rows None), st', fl', []) /\
       rows_of_book (Book.id row) rows = []) /\
    (forall req', method req' = GET -> exists rows q,
       serve (home E req') st' fl' =
         (Ok (render_home rows q), st', fl', []) /\
       rows_of_book (Book.id row) rows = []) /\
    Book_str st' row = Raise (Py.AttributeError "name") /\
    ~ referential st' /\
    (forall A req', integer_affinity E a = Sql.Int (Author.id A) ->
       exists rows,
         serve (library_home E req')
               {| authors := authors st' ++ [A]; books := books st' |} fl' =
           (Ok (render_home rows None),
            {| authors := authors st' ++ [A]; books := books st' |},
            fl', []) /\
         rows_of_book (Book.id row) rows = [(row, A)]).
Proof.
  intros Hm Hi Ht Hy Ha Hfilled Hok Hrun Hnone.
  pose proof (new_book_rows_without_author E st st' fl fl' req i t y a r
                commits Hm Hi Ht Hy Ha Hfilled Hok Hrun Hnone) as Hrows.
  pose proof (new_book_tables E st st' fl fl' req i t y a r commits
                Hm Hi Ht Hy Ha Hfilled Hok Hrun) as Htables.
  cbv zeta in Hrows, Htables.
  exists {| Book.id := next_rowid (map Book.id (books st));
            Book.isbn := i; Book.title := t;
            Book.publication_year := integer_affinity E y;
            Book.author_id := integer_affinity E a |}.
  split; [rewrite Htables; reflexivity|].
  split; [reflexivity|]. split; [reflexivity|].
  split; [|split; [|split; [|split]]].
  - intros req'. eexists. split; [apply library_get|].
    eapply rows_of_book_sub_empty; [|exact Hrows].
    intros x. apply Permutation_in, order_by_perm.
  - intros req' Hget. do 2 eexists. split; [now apply home_get|].
    eapply rows_of_book_sub_empty; [|exact Hrows].
    intros x. apply home_rows_are_joined.
  - unfold Book_str, Author_get. rewrite find_nothing; [reflexivity|].
    intros au Hau. rewrite Htables in Hau. simpl in Hau. simpl.
    destruct (Sql.value_eqb (integer_affinity E a) (Sql.Int (Author.id au)))
      eqn:Heq; [|reflexivity].
    apply value_eqb_Int in Heq. now apply Hnone in Hau.
  - intros Href.
    destruct (Href {| Book.id := next_rowid (map Book.id (books st));
                      Book.isbn := i; Book.title := t;
                      Book.publication_year := integer_affinity E y;
                      Book.author_id := integer_affinity E a |})
      as (au & Hau & Heq).
    + rewrite Htables. simpl. apply in_or_app. right. now left.
    + rewrite Htables in Hau. simpl in Hau, Heq. now apply Hnone in Hau.
  - intros A req' HA. eexists. split; [apply library_get|].
    eapply rows_of_book_perm_singleton; [apply order_by_perm|].
    rewrite Htables. simpl.
    apply (new_row_joins_later_author st
             {| Book.id := next_rowid (map Book.id (books st));
                Book.isbn := i; Book.title := t;
                Book.publication_year := integer_affinity E y;
                Book.author_id := integer_affinity E a |} A).
    + intros b Hb. apply next_rowid_fresh. now apply in_map.
    + intros au Hau. unfold references. simpl.
      destruct (Sql.value_eqb (integer_affinity E a) (Sql.Int (Author.id au)))
        eqn:Heq; [|reflexivity].
      apply value_eqb_Int in Heq. now apply Hnone in Hau.
    + unfold references. simpl. rewrite HA. simpl. apply Z.eqb_refl.
Qed.

Lemma orphan_is_no_violation :
  ~ constraint_violation sqlite_default library "555" "7".
Proof.
  intros [(b & [<-|[<-|[<-|[]]]] & Hi)|[H|[H _]]]; discriminate.
Qed.

Lemma library_add_orphan :
  serve (add_book sqlite_default
           (post_form [("isbn", "555"); ("title", "Untitled");
                       ("publication_year", "2001"); ("author_id", "7")]))
        library [] =
  (Ok (redirect "add_book"),
   {| authors := [herbert; le_guin];
      books := [dune; earthsea; dispossessed;
                {| Book.id := 4; Book.isbn := "555"; Book.title := "Untitled";
                   Book.publication_year := Sql.Int 2001;
                   Book.author_id := Sql.Int 7 |}] |},
   [("message", "Book successfully added!")],
   [{| authors := [herbert; le_guin];
       books := [dune; earthsea; dispossessed;
                 {| Book.id := 4; Book.isbn := "555"; Book.title := "Untitled";
                    Book.publication_year := Sql.Int 2001;
                    Book.author_id := Sql.Int 7 |}] |}]).
Proof. vm_compute. reflexivity. Qed.

Lemma book_of_unknown_author_is_stored_unlisted_witness :
  exists row,
    books {| authors := [herbert; le_guin];
             books := [dune; earthsea; dispossessed;
                       {| Book.id := 4; Book.isbn := "555";
                          Book.title := "Untitled";
                          Book.publication_year := Sql.Int 2001;
                          Book.author_id := Sql.Int 7 |}] |} =
      [dune; earthsea; dispossessed; row] /\
    Book.isbn row = "555" /\
    Book_str {| authors := [herbert; le_guin];
                books := [dune; earthsea; dispossessed;
                          {| Book.id := 4; Book.isbn := "555";
                             Book.title := "Untitled";
                             Book.publication_year := Sql.Int 2001;
                             Book.author_id := Sql.Int 7 |}] |} row =
      Raise (Py.AttributeError "name").
Proof.
  destruct (book_of_unknown_author_is_stored_unlisted sqlite_default library _
              [] _
              (post_form [("isbn", "555"); ("title", "Untitled");
                          ("publication_year", "2001"); ("author_id", "7")])
              "555" "Untitled" "2001" "7" _ _
              eq_refl eq_refl eq_refl eq_refl eq_refl
              (conj eq_refl (conj eq_refl (conj eq_refl eq_refl)))
              orphan_is_no_violation library_add_orphan)
    as (row & H1 & H2 & _ & _ & _ & H3 & _ & _).
  - intros au [<-|[<-|[]]]; discriminate.
  - exists row. auto.
Defined.

(** ** The dedicated delete endpoint and [clear_flash], on every input *)

(** X21.  [delete_book] never writes: for every id and every state of
    the tables, the tables afterwards are the tables before and nothing is
    committed.  When a stored book has the id, the handler raises
    [NameError] for the name [session] and flashes nothing; when none has
    and the id is within signed 64 bits, it flashes "Book not found." in
    category [danger] and redirects to [home]; when none has and the id
    is beyond, the lookup raises [OverflowError] and nothing is
    flashed. *)
Theorem delete_book_never_writes
    (E : Engine) (st : Store) (fl : list flash_t) (n : Z) :
  exists r fl',
    serve (delete_book E n) st fl = (r, st, fl', []) /\
    ((exists b, In b (books st) /\ Book.id b = n) ->
     r = Raise (Py.NameError "session") /\ fl' = fl) /\
    ((forall b, In b (books st) -> Book.id b <> n) ->
     Sql.int64 n = true ->
     r = Ok (redirect "home") /\
     fl' = (fl ++ [("danger", "Book not found.")])%list) /\
    ((forall b, In b (books st) -> Book.id b <> n) ->
     Sql.int64 n = false ->
     r = Raise Py.OverflowError /\ fl' = fl).
Proof.
  destruct (Book_get n st) as [b|] eqn:Hget.
  - apply find_some in Hget as [Hb Hid]. apply Z.eqb_eq in Hid.
    do 2 eexists. split.
    + rewrite <- Hid. now apply delete_book_present.
    + split; [now intros _|].
      split; intros Hno; exfalso; exact (Hno b Hb Hid).
  - assert (Hstored : ~ exists b, In b (books st) /\ Book.id b = n).
    { intros (b & Hb & Hid).
      apply (find_none _ _ Hget) in Hb. apply Z.eqb_neq in Hb.
      contradiction. }
    destruct (Sql.int64 n) eqn:Hrange; do 2 eexists.
    + split; [now apply delete_book_absent|].
      split; [intros H; contradiction|].
      split; [now intros _ _|intros _ H; discriminate].
    + split; [now apply delete_book_overflow|].
      split; [intros H; contradiction|].
      split; [intros _ H; discriminate|now intros _ _].
Qed.

(** X22.  [clear_flash] clears nothing: in every state it raises [NameError]
    for the name [session], which [app.py] does not bind, and the flash
    queue is as before. *)
Theorem clear_flash_always_raises (w : World) :
  clear_flash w = (Raise (Py.NameError "session"), w) /\
  flashes (snd (clear_flash w)) = flashes w.
Proof. split; reflexivity. Qed.

(** X23.  The two form pages: a GET to [/add_author] or to [/add_book] renders
    the form and writes nothing; the book form is given the stored
    authors, all of them, in table order. *)
Theorem form_pages_write_nothing
    (E : Engine) (st : Store) (fl : list flash_t) (req : Request) :
  method req = GET ->
  serve (add_author E req) st fl = (Ok render_add_author, st, fl, []) /\
  serve (add_book E req) st fl =
    (Ok (render_add_book (authors st)), st, fl, []).
Proof.
  intros Hm. split; [now apply add_author_get|now apply add_book_get].
Qed.

Lemma form_pages_write_nothing_witness :
  serve (add_author sqlite_default (get_args [])) library [] =
    (Ok render_add_author, library, [], []) /\
  serve (add_book sqlite_default (get_args [])) library [] =
    (Ok (render_add_book [herbert; le_guin]), library, [], []).
Proof.
  apply (form_pages_write_nothing sqlite_default library [] (get_args [])).
  reflexivity.
Defined.

(** ** The string methods of the models *)

Lemma append_inj_l (a x y : string) : a ++ x = a ++ y -> x = y.
Proof.
  induction a as [|c a IH]; simpl; [auto|].
  intros H. injection H as H. now apply IH.
Qed.

Lemma length_append (a b : string) :
  String.length (a ++ b) = (String.length a + String.length b)%nat.
Proof. induction a as [|c a IH]; simpl; congruence. Qed.

Lemma append_inj_r (x y c : string) : x ++ c = y ++ c -> x = y.
Proof.
  revert y. induction x as [|d x IH]; intros [|e y] H; simpl in H.
  - reflexivity.
  - apply (f_equal String.length) in H. simpl in H.
    rewrite length_append in H. lia.
  - apply (f_equal String.length) in H. simpl in H.
    rewrite length_append in H. lia.
  - injection H as -> H. f_equal. now apply IH.
Qed.

Lemma split_at_first (c : ascii) (s1 s2 r1 r2 : string) :
  free_of c s1 = true -> free_of c s2 = true ->
  s1 ++ String c r1 = s2 ++ String c r2 -> s1 = s2 /\ r1 = r2.
Proof.
  revert s2. induction s1 as [|d s1 IH]; intros [|e s2] H1 H2 H;
    simpl in *.
  - injection H as H. now split.
  - injection H as Hc _. subst e. rewrite Ascii.eqb_refl in H2. discriminate.
  - injection H as Hc _. subst d. rewrite Ascii.eqb_refl in H1. discriminate.
  - injection H as -> H.
    apply andb_true_iff in H1 as [_ H1]. apply andb_true_iff in H2 as [_ H2].
    destruct (IH s2 H1 H2 H) as [-> ->]. now split.
Qed.

Lemma all_digits_free_of (c : ascii) (s : string) :
  Py.isdigit c = false -> all_digits s = true -> free_of c s = true.
Proof.
  intros Hc. induction s as [|d s IH]; simpl; [reflexivity|].
  intros H. apply andb_true_iff in H as [Hd Hs]. rewrite (IH Hs), andb_true_r.
  apply negb_true_iff. destruct (Ascii.eqb_spec d c); [congruence|reflexivity].
Qed.

Lemma str_int_free_of_comma (n : Z) : free_of "," (Format.str_int n) = true.
Proof.
  unfold Format.str_int. destruct n as [|p|p]; [reflexivity| |]; simpl;
    rewrite string_of_pos;
    apply all_digits_free_of; try reflexivity; apply string_of_uint_digits.
Qed.

Lemma str_int_injective (n m : Z) :
  Format.str_int n = Format.str_int m -> n = m.
Proof.
  intros H. pose proof (int_str_roundtrip n) as Hn.
  rewrite H, int_str_roundtrip in Hn. congruence.
Qed.

(** X24.  [Author.__repr__] tells authors apart by id and name: two authors with
    the same [repr] have the same id and the same name. *)
Theorem Author_repr_determines_id_and_name (a1 a2 : Author.t) :
  Author_repr a1 = Author_repr a2 ->
  Author.id a1 = Author.id a2 /\ Author.name a1 = Author.name a2.
Proof.
  unfold Author_repr. intros H.
  apply append_inj_l in H.
  change (", name=" ++ Author.name a1 ++ ")>")
    with (String "," (" name=" ++ Author.name a1 ++ ")>")) in H.
  change (", name=" ++ Author.name a2 ++ ")>")
    with (String "," (" name=" ++ Author.name a2 ++ ")>")) in H.
  apply split_at_first in H as [Hid Hname];
    try apply str_int_free_of_comma.
  split; [now apply str_int_injective|].
  apply append_inj_l in Hname. now apply append_inj_r in Hname.
Qed.

Lemma Author_repr_determines_id_and_name_witness :
  Author.id herbert = 1 /\ Author.name herbert = "Frank Herbert".
Proof.
  apply (Author_repr_determines_id_and_name herbert
           {| Author.id := 1; Author.name := "Frank Herbert";
              Author.birth_date := None; Author.date_of_death := None |}).
  vm_compute. reflexivity.
Defined.

(** X25.  [Book.__str__] needs the referenced author: it returns the text
    "'title' (year) by name" with the name of a stored author whose id is
    the book's author_id, and raises [AttributeError] exactly when no
    stored author has that id. *)
Theorem Book_str_needs_stored_author (st : Store) (b : Book.t) :
  (forall s, Book_str st b = Ok s ->
     exists a, In a (authors st) /\
       Book.author_id b = Sql.Int (Author.id a) /\
       s = "'" ++ Book.title b ++ "' (" ++
           Format.str_value (Book.publication_year b) ++ ") by " ++
           Author.name a) /\
  ((exists a, In a (authors st) /\
      Book.author_id b = Sql.Int (Author.id a)) ->
   exists s, Book_str st b = Ok s) /\
  ((forall a, In a (authors st) ->
      Book.author_id b <> Sql.Int (Author.id a)) <->
   Book_str st b = Raise (Py.AttributeError "name")).
Proof.
  unfold Book_str, Author_get.
  destruct (find (fun a => Sql.value_eqb (Book.author_id b)
                                         (Sql.Int (Author.id a)))
                 (authors st)) as [a|] eqn:Hf.
  - apply find_some in Hf as [Ha Heq]. apply value_eqb_Int in Heq.
    split; [|split; [|split]].
    + intros s Hs. injection Hs as <-. now exists a.
    + intros _. eexists. reflexivity.
    + intros Hno. exfalso. exact (Hno a Ha Heq).
    + discriminate.
  - assert (Hno : forall a, In a (authors st) ->
               Book.author_id b <> Sql.Int (Author.id a)).
    { intros a Ha Heq. apply (find_none _ _ Hf) in Ha.
      apply value_eqb_Int in Heq. congruence. }
    split; [|split; [|split]].
    + discriminate.
    + intros (a & Ha & Heq). exfalso. exact (Hno a Ha Heq).
    + reflexivity.
    + intros _. exact Hno.
Qed.

(** X26.  [Book.__repr__] tells books apart by id: two books with the same
    [repr] have the same id. *)
Theorem Book_repr_determines_id (b1 b2 : Book.t) :
  Book_repr b1 = Book_repr b2 -> Book.id b1 = Book.id b2.
Proof.
  unfold Book_repr. intros H.
  apply append_inj_l in H.
  change (", title=" ++ Book.title b1 ++ ", author_id=" ++
          Format.str_value (Book.author_id b1) ++ ")>")
    with (String "," (" title=" ++ Book.title b1 ++ ", author_id=" ++
                      Format.str_value (Book.author_id b1) ++ ")>")) in H.
  change (", title=" ++ Book.title b2 ++ ", author_id=" ++
          Format.str_value (Book.author_id b2) ++ ")>")
    with (String "," (" title=" ++ Book.title b2 ++ ", author_id=" ++
                      Format.str_value (Book.author_id b2) ++ ")>")) in H.
  apply split_at_first in H as [Hid _];
    try apply str_int_free_of_comma.
  now apply str_int_injective.
Qed.

Lemma Book_repr_determines_id_witness : Book.id dune = 1.
Proof.
  apply (Book_repr_determines_id dune
           {| Book.id := 1; Book.isbn := "999"; Book.title := "Dune";
              Book.publication_year := Sql.Null;
              Book.author_id := Sql.Text "1" |}).
  vm_compute. reflexivity.
Defined.
